(** * routers/chat.py: the chat route layer of pixly

    A shallow embedding of [src/routers/chat.py]: the temporal query
    interpreter [parse_temporal_query], the [/chat] handler, the
    scope-listing endpoint and the two settings endpoints.

    Modelling conventions.
    - Python [str] values are [string]s of ASCII characters; [str.lower]
      and [str.title] change the letters A-Z / a-z only.
    - Python [int] is unbounded, hence [Z].
    - The handlers talk to collaborators whose code is not part of this
      module (the [ChatHistoryManager] methods, the vector store client
      and [chat_with_gemini]).  A handler is a tree of such calls; it is
      run against an arbitrary environment that answers every call with a
      value or with a raised exception.
    - The records the manager stores appear only in the one property that
      speaks of them; that store is modelled from the specification and
      its definitions say so. *)

From Stdlib Require Import String Ascii List ZArith Lia Bool Arith.
From Stdlib Require Import Numbers.DecimalString.
From ExtLib Require Import Structures.Monad.
Import ListNotations.
Import MonadNotation.

Local Open Scope list_scope.
Local Open Scope string_scope.

(* ===================================================================== *)
(** ** Python string primitives *)
(* ===================================================================== *)

Module PyStr.

(** [c.lower()] on one ASCII character. *)
Definition lower_char (c : ascii) : ascii :=
  let n := nat_of_ascii c in
  if (65 <=? n)%nat && (n <=? 90)%nat then ascii_of_nat (n + 32) else c.

(** [c.upper()] on one ASCII character. *)
Definition upper_char (c : ascii) : ascii :=
  let n := nat_of_ascii c in
  if (97 <=? n)%nat && (n <=? 122)%nat then ascii_of_nat (n - 32) else c.

Definition is_alpha (c : ascii) : bool :=
  let n := nat_of_ascii c in
  ((65 <=? n)%nat && (n <=? 90)%nat) || ((97 <=? n)%nat && (n <=? 122)%nat).

(** [s.lower()] *)
Fixpoint lower (s : string) : string :=
  match s with
  | EmptyString => EmptyString
  | String c s' => String (lower_char c) (lower s')
  end.

(** [s.startswith(p)] *)
Fixpoint startswith (p s : string) : bool :=
  match p, s with
  | EmptyString, _ => true
  | String _ _, EmptyString => false
  | String a p', String b s' => Ascii.eqb a b && startswith p' s'
  end.

(** [p in s]: [p] occurs in [s] at some position. *)
Fixpoint contains (p s : string) : bool :=
  startswith p s ||
  match s with
  | EmptyString => false
  | String _ s' => contains p s'
  end.

(** [s.endswith(p)] *)
Fixpoint endswith (p s : string) : bool :=
  String.eqb p s ||
  match s with
  | EmptyString => false
  | String _ s' => endswith p s'
  end.

(** [s.replace(old, new)] for a non-empty [old]: the occurrences of
    [old] are replaced from left to right, without overlap.  [skip]
    counts the characters of a replaced occurrence still to be passed
    over. *)
Fixpoint replace_from (old new : string) (skip : nat) (s : string) : string :=
  match s with
  | EmptyString => EmptyString
  | String c s' =>
      match skip with
      | S k => replace_from old new k s'
      | O =>
          if startswith old s
          then new ++ replace_from old new (String.length old - 1) s'
          else String c (replace_from old new 0 s')
      end
  end.

Definition replace (old new s : string) : string := replace_from old new 0 s.

(** [s.title()]: a letter that follows a letter is lowercased, any
    other letter is uppercased. *)
Fixpoint title_from (prev_cased : bool) (s : string) : string :=
  match s with
  | EmptyString => EmptyString
  | String c s' =>
      if is_alpha c
      then String (if prev_cased then lower_char c else upper_char c)
                  (title_from true s')
      else String c (title_from false s')
  end.

Definition title (s : string) : string := title_from false s.

(** [sep.join(parts)] *)
Fixpoint join (sep : string) (parts : list string) : string :=
  match parts with
  | [] => EmptyString
  | [x] => x
  | x :: rest => x ++ sep ++ join sep rest
  end.

(** [s[:n]] for [n >= 0] *)
Fixpoint take (n : nat) (s : string) : string :=
  match n, s with
  | S k, String c s' => String c (take k s')
  | _, _ => EmptyString
  end.

(** [str(n)] for an integer. *)
Definition str_int (n : Z) : string := NilZero.string_of_int (Z.to_int n).

(** The line feed character, as a one-character string. *)
Definition nl : string := String (ascii_of_nat 10) EmptyString.

(** What it means for [p] to be a substring of [s]. *)
Definition occurs_in (p s : string) : Prop :=
  exists pre post, s = pre ++ p ++ post.

End PyStr.

(* ===================================================================== *)
(** ** The query interpreter *)
(* ===================================================================== *)

(** The dictionary returned by [parse_temporal_query]: either
    [{"hours_ago": h, "is_temporal": True}] or [{"is_temporal": False}]. *)
Inductive TemporalInfo : Type :=
| Temporal (hours_ago : Z)
| NotTemporal.

Definition is_temporal (t : TemporalInfo) : bool :=
  match t with Temporal _ => true | NotTemporal => false end.

(** The dict literal; a Python dict iterates in insertion order. *)
Definition temporal_patterns : list (string * Z) :=
  [ ("yesterday", 24%Z);
    ("last hour", 1%Z);
    ("past hour", 1%Z);
    ("last 2 hours", 2%Z);
    ("last few hours", 3%Z);
    ("today", 24%Z);
    ("last 24 hours", 24%Z);
    ("this morning", 12%Z) ].

(** The [for pattern, hours in ...items()] loop with its early return. *)
Fixpoint scan_patterns (items : list (string * Z)) (message_lower : string)
  : TemporalInfo :=
  match items with
  | [] => NotTemporal
  | (pattern, hours) :: rest =>
      if PyStr.contains pattern message_lower
      then Temporal hours
      else scan_patterns rest message_lower
  end.

Definition parse_temporal_query (message : string) : TemporalInfo :=
  let message_lower := PyStr.lower message in
  scan_patterns temporal_patterns message_lower.

(* ===================================================================== *)
(** ** Data exchanged with the collaborators *)
(* ===================================================================== *)

(** A Python dict with string keys, in insertion order. *)
Definition dict (V : Type) : Type := list (string * V).

(** [d.get(key)] *)
Fixpoint dict_lookup {V} (key : string) (d : dict V) : option V :=
  match d with
  | [] => None
  | (k, v) :: rest => if String.eqb k key then Some v else dict_lookup key rest
  end.

(** [d.get(key, default)] *)
Definition dict_get {V} (key : string) (default : V) (d : dict V) : V :=
  match dict_lookup key d with
  | Some v => v
  | None => default
  end.

(** [getattr(obj, name, default)]: an attribute the object does not carry
    is [None] here. *)
Definition getattr {V} (attribute : option V) (default : V) : V :=
  match attribute with
  | Some v => v
  | None => default
  end.

(** The request body of [/chat] ([schemas.chat.ChatMessage]): [message]
    and [image_data] are read directly, the three other attributes through
    [getattr] with a default. *)
Module ChatMessage.
Record t : Type := make {
  message : string;
  image_data : option string;
  game : option string;
  include_history : option bool;
  history_limit : option Z
}.
End ChatMessage.

(** One stored exchange, as [get_recent_history] returns it. *)
Record MessageRecord : Type := {
  timestamp : string;
  user_message : string;
  assistant_response : string
}.

(** What [chat_with_gemini] returns, seen through the three observations
    the handler makes on it: [isinstance(response, dict)], the dict's items
    and [str(response)]. *)
Inductive Response : Type :=
| RespDict (items : dict string) (str : string)
| RespOther (str : string).

(** The module-level [chat_history_manager] object: the two constructor
    arguments it is created with. *)
Record ChatHistoryManager : Type := {
  persist_directory : string;
  max_history : Z
}.

Definition chat_history_manager : ChatHistoryManager :=
  {| persist_directory := "./vector_db"; max_history := 30 |}.

(** [fastapi.HTTPException] *)
Record HTTPException : Type := {
  status_code : Z;
  detail : string
}.

(** What a [try] body can raise: any exception, seen through [str(e)], or
    an [HTTPException]. *)
Inductive PyExn : Type :=
| OtherException (str : string)
| IsHTTPException (e : HTTPException).

(* ===================================================================== *)
(** ** Handlers: trees of collaborator calls *)
(* ===================================================================== *)

(** The calls a handler makes outside this module, indexed by the type of
    the value they return. *)
Inductive Call : Type -> Type :=
| get_recent_history (game : string) (limit hours_ago : option Z)
  : Call (list MessageRecord)
| add_message (game user_message assistant_response : string) : Call unit
| get_history_context (game : string) (limit : Z) : Call (option string)
| get_stats (game : string) : Call (dict Z)
| list_collections : Call (list string)
| chat_with_gemini (message : string) (image_data : option string)
  : Call Response.

(** A handler raising exceptions of type [E] and returning an [A].  A
    call is answered by its value ([inl]) or by an exception, given by
    its [str] ([inr]). *)
Inductive Handler (E A : Type) : Type :=
| Return (a : A)
| Raise (e : E)
| Await {X : Type} (c : Call X) (k : X + string -> Handler E A)
| ReadMaxHistory (k : Z -> Handler E A)
| WriteMaxHistory (v : Z) (k : Handler E A).

Arguments Return {E A} a.
Arguments Raise {E A} e.
Arguments Await {E A X} c k.
Arguments ReadMaxHistory {E A} k.
Arguments WriteMaxHistory {E A} v k.

Fixpoint hbind {E A B} (h : Handler E A) (f : A -> Handler E B) : Handler E B :=
  match h with
  | Return a => f a
  | Raise e => Raise e
  | Await c k => Await c (fun r => hbind (k r) f)
  | ReadMaxHistory k => ReadMaxHistory (fun v => hbind (k v) f)
  | WriteMaxHistory v k => WriteMaxHistory v (hbind k f)
  end.

#[export] Instance Monad_Handler {E} : Monad (Handler E) :=
  {| ret := fun _ a => Return a; bind := fun _ _ h f => hbind h f |}.

(** [try: body / except ... as e: handler(e)] *)
Fixpoint try_except {E E' A} (body : Handler E A) (handler : E -> Handler E' A)
  : Handler E' A :=
  match body with
  | Return a => Return a
  | Raise e => handler e
  | Await c k => Await c (fun r => try_except (k r) handler)
  | ReadMaxHistory k => ReadMaxHistory (fun v => try_except (k v) handler)
  | WriteMaxHistory v k => WriteMaxHistory v (try_except k handler)
  end.

(** A call whose exception propagates. *)
Definition call {X} (c : Call X) : Handler string X :=
  Await c (fun r => match r with inl x => Return x | inr e => Raise e end).

(** How a request ended. *)
Inductive Outcome (E A : Type) : Type :=
| Returned (a : A)
| Raised (e : E).

Arguments Returned {E A} a.
Arguments Raised {E A} e.

(** A call that was made. *)
Inductive Event : Type :=
| Called {X : Type} (c : Call X).

(** The collaborators: the answer to the [n]-th call of a run. *)
Definition Env : Type := forall X : Type, Call X -> nat -> X + string.

Record Ran (E A : Type) : Type := {
  trace : list Event;
  outcome : Outcome E A;
  manager : ChatHistoryManager
}.

Arguments trace {E A} r.
Arguments outcome {E A} r.
Arguments manager {E A} r.

(** Running a handler: calls are answered by [env] and logged in order;
    [mgr] is the manager object's state, [n] the number of calls made so
    far. *)
Fixpoint run {E A} (h : Handler E A) (env : Env) (mgr : ChatHistoryManager)
    (n : nat) : Ran E A :=
  match h with
  | Return a => {| trace := []; outcome := Returned a; manager := mgr |}
  | Raise e => {| trace := []; outcome := Raised e; manager := mgr |}
  | Await c k =>
      let r := run (k (env _ c n)) env mgr (S n) in
      {| trace := Called c :: trace r; outcome := outcome r;
         manager := manager r |}
  | ReadMaxHistory k => run (k (max_history mgr)) env mgr n
  | WriteMaxHistory v k =>
      run k env {| persist_directory := persist_directory mgr;
                   max_history := v |} n
  end.

(* ===================================================================== *)
(** ** The [/chat] handler *)
(* ===================================================================== *)

Local Open Scope monad_scope.

(** Python truthiness of the value [get_history_context] returns: [None]
    and the empty string are false. *)
Definition truthy (history_context : option string) : bool :=
  match history_context with
  | Some s => negb (String.eqb s "")
  | None => false
  end.

(** What the handler returns: the dict of the temporal branch, or the
    model's response as it came. *)
Inductive ChatResult : Type :=
| TemporalReply (response : string) (game : string) (is_temporal_query : bool)
| ModelReply (response : Response).

(** The reply of the temporal branch when the window holds no record. *)
Definition no_history_reply (hours_ago : Z) (game : string) : string :=
  "I don't have any conversation history from the last "
  ++ PyStr.str_int hours_ago ++ " hours for " ++ game ++ ".".

(** The text put before the user's message when there is a context. *)
Definition enhance (history_context user_message : string) : string :=
  history_context ++ PyStr.nl ++ PyStr.nl ++ "---" ++ PyStr.nl ++ PyStr.nl
  ++ "Current question: " ++ user_message.

(** The text stored as the assistant's side of a model exchange. *)
Definition response_text_of (response : Response) : string :=
  match response with
  | RespDict items s => dict_get "response" s items
  | RespOther s => s
  end.

Section ChatHandler.

(** [datetime.fromisoformat(ts).strftime("%H:%M")]: the hour and minute of
    an ISO timestamp ([inl]), or the [str] of the [ValueError] that
    [fromisoformat] raises ([inr]).  A library function, taken as a
    parameter. *)
Variable isoformat_HM : string -> string + string.

(** The [for msg in history] loop that fills [history_summary]. *)
Fixpoint summarize (history : list MessageRecord) : Handler string (list string) :=
  match history with
  | [] => ret []
  | msg :: rest =>
      match isoformat_HM (timestamp msg) with
      | inr e => Raise e
      | inl time_str =>
          more <- summarize rest ;;
          ret (("At " ++ time_str ++ ":")
               :: ("  You: " ++ user_message msg)
               :: ("  Me: " ++ PyStr.take 100 (assistant_response msg) ++ "...")
               :: more)
      end
  end.

Definition chat (message : ChatMessage.t) : Handler HTTPException ChatResult :=
  try_except
    (let game := getattr (ChatMessage.game message) "general" in
     let user_message := ChatMessage.message message in
     let image_data := ChatMessage.image_data message in
     let temporal_info := parse_temporal_query user_message in
     match temporal_info with
     | Temporal hours_ago =>
         history <- call (get_recent_history game None (Some hours_ago)) ;;
         response_text <-
           match history with
           | [] => ret (no_history_reply hours_ago game)
           | _ :: _ =>
               history_summary <- summarize history ;;
               ret (PyStr.join PyStr.nl history_summary)
           end ;;
         call (add_message game user_message response_text) ;;
         ret (TemporalReply response_text game true)
     | NotTemporal =>
         let include_history :=
           getattr (ChatMessage.include_history message) true in
         let history_limit :=
           getattr (ChatMessage.history_limit message) 5%Z in
         enhanced_message <-
           (if include_history
            then
              history_context <- call (get_history_context game history_limit) ;;
              if truthy history_context
              then ret (enhance (getattr history_context "") user_message)
              else ret user_message
            else ret user_message) ;;
         response <- call (chat_with_gemini enhanced_message image_data) ;;
         let response_text := response_text_of response in
         call (add_message game user_message response_text) ;;
         ret (ModelReply response)
     end)
    (fun e => Raise {| status_code := 500; detail := "Chat error: " ++ e |}).

End ChatHandler.

(* ===================================================================== *)
(** ** The history endpoints *)
(* ===================================================================== *)

(** One element of the ["games"] list. *)
Module GameEntry.
Record t : Type := make {
  game : string;
  collection_name : string;
  total_messages : Z
}.
End GameEntry.

Record GamesListing : Type := {
  games : list GameEntry.t;
  total_games : Z
}.

(** The game name derived from a collection name. *)
Definition game_name_of (name : string) : string :=
  PyStr.title (PyStr.replace "_" " " (PyStr.replace "_chat_history" "" name)).

(** The [for collection in collections] loop. *)
Fixpoint collect_games (collections : list string)
  : Handler string (list GameEntry.t) :=
  match collections with
  | [] => ret []
  | name :: rest =>
      if PyStr.endswith "_chat_history" name
      then
        let game_name := game_name_of name in
        stats <- call (get_stats game_name) ;;
        more <- collect_games rest ;;
        ret (GameEntry.make game_name name (dict_get "total_messages" 0%Z stats)
             :: more)
      else collect_games rest
  end.

Definition list_games_with_history : Handler HTTPException GamesListing :=
  try_except
    (collections <- call list_collections ;;
     games_with_history <- collect_games collections ;;
     ret {| games := games_with_history;
            total_games := Z.of_nat (List.length games_with_history) |})
    (fun e => Raise {| status_code := 500; detail := e |}).

(* ===================================================================== *)
(** ** The settings endpoints *)
(* ===================================================================== *)

Module SettingsUpdated.
Record t : Type := make {
  message : string;
  max_history : Z
}.
End SettingsUpdated.

Module Settings.
Record t : Type := make {
  max_history : Z;
  persist_directory : string
}.
End Settings.

Definition update_history_settings (max_history : Z)
  : Handler HTTPException SettingsUpdated.t :=
  try_except
    ((if (max_history <? 1)%Z || (max_history >? 100)%Z
      then Raise (IsHTTPException
                    {| status_code := 400;
                       detail := "max_history must be between 1 and 100" |})
      else ret tt) ;;
     WriteMaxHistory max_history
       (ret (SettingsUpdated.make "Chat history settings updated" max_history)))
    (fun e =>
       match e with
       | IsHTTPException http => Raise http
       | OtherException s => Raise {| status_code := 500; detail := s |}
       end).

Definition get_history_settings : Handler HTTPException Settings.t :=
  try_except
    (ReadMaxHistory (fun v => ret (Settings.make v "./vector_db")))
    (fun e : string => Raise {| status_code := 500; detail := e |}).

(* ===================================================================== *)
(** ** The read endpoints of one scope *)
(* ===================================================================== *)

(** What [GET /history/{game}] returns. *)
Module HistoryListing.
Record t : Type := make {
  game : string;
  message_count : Z;
  messages : list MessageRecord
}.
End HistoryListing.

Definition get_chat_history (game : string) (limit hours_ago : option Z)
  : Handler HTTPException HistoryListing.t :=
  try_except
    (history <- call (get_recent_history game limit hours_ago) ;;
     ret (HistoryListing.make game (Z.of_nat (List.length history)) history))
    (fun e => Raise {| status_code := 500; detail := e |}).

(** What [GET /history/{game}/stats] returns. *)
Module GameStats.
Record t : Type := make {
  game : string;
  stats : dict Z
}.
End GameStats.

Definition get_chat_stats (game : string) : Handler HTTPException GameStats.t :=
  try_except
    (stats <- call (get_stats game) ;;
     ret (GameStats.make game stats))
    (fun e => Raise {| status_code := 500; detail := e |}).

(* ===================================================================== *)
(** ** Vocabulary of the properties *)
(* ===================================================================== *)

(** [p] is the pattern at which the loop of [parse_temporal_query]
    returns: it occurs in the lowercased message and no pattern listed
    before it does. *)
Definition is_the_match (message p : string) : Prop :=
  PyStr.occurs_in p (PyStr.lower message) /\
  exists earlier h later,
    temporal_patterns = (earlier ++ (p, h) :: later)%list /\
    forall q, In q (map fst earlier) ->
              ~ PyStr.occurs_in q (PyStr.lower message).

(** The messages sent to the model during a run. *)
Fixpoint model_messages (tr : list Event) : list string :=
  match tr with
  | [] => []
  | Called c :: rest =>
      match c with
      | chat_with_gemini m _ => m :: model_messages rest
      | _ => model_messages rest
      end
  end.

(** The exchanges handed to [add_message] during a run: scope, user
    message, assistant response. *)
Fixpoint stored_exchanges (tr : list Event) : list (string * string * string) :=
  match tr with
  | [] => []
  | Called c :: rest =>
      match c with
      | add_message g u a => (g, u, a) :: stored_exchanges rest
      | _ => stored_exchanges rest
      end
  end.

(** The scope a call is about, for the calls that have one. *)
Definition event_game (e : Event) : option string :=
  match e with
  | Called c =>
      match c with
      | get_recent_history g _ _ => Some g
      | add_message g _ _ => Some g
      | get_history_context g _ => Some g
      | get_stats g => Some g
      | list_collections => None
      | chat_with_gemini _ _ => None
      end
  end.

(** An environment given by one answer per kind of call. *)
Definition fixed_env
    (history : list MessageRecord + string)
    (context : option string + string)
    (stats : string -> dict Z + string)
    (collections : list string + string)
    (reply : Response + string)
    (stored : unit + string) : Env :=
  fun X c _ =>
    match c in Call X return X + string with
    | get_recent_history _ _ _ => history
    | add_message _ _ _ => stored
    | get_history_context _ _ => context
    | get_stats g => stats g
    | list_collections => collections
    | chat_with_gemini _ _ => reply
    end.

(** A stand-in for the date library on timestamps written
    [YYYY-MM-DDTHH:MM:SS]: the five characters from position 11. *)
Definition sample_isoformat_HM (ts : string) : string + string :=
  if (String.length ts =? 19)%nat
  then inl (String.substring 11 5 ts)
  else inr ("Invalid isoformat string: '" ++ ts ++ "'").

(** Collaborators that never fail and hold nothing: no record, no
    context, no collection. *)
Definition quiet_env : Env :=
  fixed_env (inl []) (inl None) (fun _ => inl []) (inl [])
            (inl (RespOther "ok")) (inl tt).

(** A store with one collection, which holds no record. *)
Definition empty_scope_env : Env :=
  fixed_env (inl []) (inl None) (fun _ => inl [("total_messages", 0%Z)])
            (inl ["minecraft_chat_history"]) (inl (RespOther "ok")) (inl tt).

(** The scope [game] holds no record: [get_stats] reports zero messages
    for it. *)
Definition scope_holds_no_record (env : Env) (game : string) : Prop :=
  forall n, exists stats,
    env _ (get_stats game) n = inl stats /\
    dict_get "total_messages" 0%Z stats = 0%Z.

(** The scope [game] appears in what the scope-listing endpoint returns. *)
Definition lists_scope (env : Env) (game : string) : Prop :=
  exists listing,
    outcome (run list_games_with_history env chat_history_manager 0)
    = Returned listing /\
    In game (map GameEntry.game (games listing)).

(** The listing leaves out every scope that holds no record. *)
Definition empty_scopes_not_listed (env : Env) : Prop :=
  forall game, scope_holds_no_record env game -> ~ lists_scope env game.

(** The entry the listing builds for a collection. *)
Definition game_entry (stats_of : string -> dict Z) (name : string)
  : GameEntry.t :=
  GameEntry.make (game_name_of name) name
                 (dict_get "total_messages" 0%Z (stats_of (game_name_of name))).

(** A store with one exchange about Minecraft, and a model that answers
    with a dict. *)
Definition sample_record : MessageRecord :=
  {| timestamp := "2024-05-01T10:30:00";
     user_message := "How do I find diamonds?";
     assistant_response := "Mine at deep levels." |}.

Definition history_env : Env :=
  fixed_env (inl [ sample_record ]) (inl (Some "Previous conversation"))
            (fun _ => inl [ ("total_messages", 1%Z) ])
            (inl [ "minecraft_chat_history" ])
            (inl (RespDict [ ("response", "Use an iron pickaxe.") ] "{...}"))
            (inl tt).

(** Two requests: a temporal one for the scope "minecraft", and a plain
    one whose message object carries the text only. *)
Definition temporal_request : ChatMessage.t :=
  ChatMessage.make "What did I ask yesterday?" None (Some "minecraft") None None.

Definition plain_request : ChatMessage.t :=
  ChatMessage.make "How do I craft a pickaxe?" None None None None.

(** One invocation of an endpoint of this module. *)
Inductive Invocation : Type :=
| PostChat (message : ChatMessage.t)
| GetHistory (game : string) (limit hours_ago : option Z)
| GetStats (game : string)
| GetGames
| PostSettings (max_history : Z)
| GetSettings.

(** The calls an invocation makes and the manager it leaves. *)
Definition invoke (isoformat_HM : string -> string + string)
    (i : Invocation) (env : Env) (mgr : ChatHistoryManager) (n : nat)
  : list Event * ChatHistoryManager :=
  match i with
  | PostChat message =>
      let r := run (chat isoformat_HM message) env mgr n in
      (trace r, manager r)
  | GetHistory game limit hours_ago =>
      let r := run (get_chat_history game limit hours_ago) env mgr n in
      (trace r, manager r)
  | GetStats game =>
      let r := run (get_chat_stats game) env mgr n in (trace r, manager r)
  | GetGames =>
      let r := run list_games_with_history env mgr n in (trace r, manager r)
  | PostSettings v =>
      let r := run (update_history_settings v) env mgr n in
      (trace r, manager r)
  | GetSettings =>
      let r := run get_history_settings env mgr n in (trace r, manager r)
  end.

(** The manager after a sequence of invocations, served one after the
    other. *)
Fixpoint serve (isoformat_HM : string -> string + string)
    (requests : list Invocation) (env : Env) (mgr : ChatHistoryManager)
    (n : nat) : ChatHistoryManager :=
  match requests with
  | [] => mgr
  | i :: rest =>
      let '(tr, mgr') := invoke isoformat_HM i env mgr n in
      serve isoformat_HM rest env mgr' (n + List.length tr)
  end.

(** The calls of a run that read the stored history. *)
Fixpoint history_reads (tr : list Event) : nat :=
  match tr with
  | [] => 0
  | Called c :: rest =>
      match c with
      | get_recent_history _ _ _ => S (history_reads rest)
      | get_history_context _ _ => S (history_reads rest)
      | _ => history_reads rest
      end
  end.

(** A window whose second record has a timestamp the date library
    rejects. *)
Definition damaged_history_env : Env :=
  fixed_env (inl [ sample_record;
                   {| timestamp := "yesterday";
                      user_message := "Where is the village?";
                      assistant_response := "Follow the river." |} ])
            (inl (Some "Previous conversation"))
            (fun _ => inl [ ("total_messages", 2%Z) ])
            (inl [ "minecraft_chat_history" ])
            (inl (RespOther "ok")) (inl tt).

(** Collaborators whose model call fails. *)
Definition model_down_env : Env :=
  fixed_env (inl []) (inl (Some "Previous conversation")) (fun _ => inl [])
            (inl []) (inr "model unavailable") (inl tt).

(** A store whose client fails. *)
Definition store_down_env : Env :=
  fixed_env (inr "store unavailable") (inr "store unavailable")
            (fun _ => inr "store unavailable") (inr "store unavailable")
            (inl (RespOther "ok")) (inr "store unavailable").

(** Handlers that never assign to the manager object. *)
Inductive read_only {E A : Type} : Handler E A -> Prop :=
| read_only_Return (a : A) : read_only (Return a)
| read_only_Raise (e : E) : read_only (Raise e)
| read_only_Await (X : Type) (c : Call X) (k : X + string -> Handler E A) :
    (forall r, read_only (k r)) -> read_only (Await c k)
| read_only_Read (k : Z -> Handler E A) :
    (forall v, read_only (k v)) -> read_only (ReadMaxHistory k).

(** Collaborators whose [add_message] fails. *)
Definition add_failing_env : Env :=
  fixed_env (inl []) (inl None) (fun _ => inl []) (inl [])
            (inl (RespOther "ok")) (inr "disk full").

(** A plain request that opts out of the history and carries an image,
    and a temporal request that carries an image and history options. *)
Definition opt_out_request : ChatMessage.t :=
  ChatMessage.make "How do I craft a pickaxe?" (Some "image") None
                   (Some false) None.

Definition decorated_temporal_request : ChatMessage.t :=
  ChatMessage.make "What did I ask yesterday?" (Some "image")
                   (Some "minecraft") (Some false) (Some 2%Z).

(** Modelled from the spec: the history store behind [ChatHistoryManager],
    whose code ([backend/chat_history.py]) is not among the sources.  A
    scope is a case-normalized name; the store gives each scope its
    records in insertion order, oldest first, and no record to a scope
    that was never written. *)
Definition Store : Type := string -> list MessageRecord.

(** Modelled from the spec: the case-normalized name of a scope. *)
Definition scope_key (game : string) : string := PyStr.lower game.

(** Modelled from the spec: the eviction that follows an insertion; the
    oldest records are removed until at most [bound] remain. *)
Definition evict (bound : nat) (records : list MessageRecord)
  : list MessageRecord :=
  skipn (List.length records - bound) records.

(** Modelled from the spec: [add_message] appends the new record to the
    scope, then evicts down to [max_history]; [now] is the record's
    timestamp. *)
Definition add_message_spec (max_history : Z) (store : Store)
    (game user_message assistant_response now : string) : Store :=
  fun key =>
    if String.eqb key (scope_key game)
    then evict (Z.to_nat max_history)
               (store key ++ [ {| timestamp := now;
                                  user_message := user_message;
                                  assistant_response := assistant_response |} ])
    else store key.

(** Modelled from the spec: the store after the calls of a run, the first
    of which is the [n]-th call; an [add_message] call that the
    environment answers with an exception stores nothing, and [clock]
    gives the time of each call. *)
Fixpoint stored_after (clock : nat -> string) (env : Env) (max_history : Z)
    (tr : list Event) (n : nat) (store : Store) : Store :=
  match tr with
  | [] => store
  | Called c :: rest =>
      stored_after clock env max_history rest (S n)
        match c with
        | add_message g u a =>
            match env _ (add_message g u a) n with
            | inl _ => add_message_spec max_history store g u a (clock n)
            | inr _ => store
            end
        | _ => store
        end
  end.

(** A temporal request that returns leaves its scope with one record
    more than it had. *)
Definition temporal_request_grows_history
    (isoformat_HM : string -> string + string) (clock : nat -> string)
    (message : ChatMessage.t) (env : Env) (mgr : ChatHistoryManager)
    (n : nat) (store : Store) : Prop :=
  let r := run (chat isoformat_HM message) env mgr n in
  let key := scope_key (getattr (ChatMessage.game message) "general") in
  is_temporal (parse_temporal_query (ChatMessage.message message)) = true ->
  forall result,
    outcome r = Returned result ->
    List.length (stored_after clock env (max_history mgr) (trace r) n store key)
    = S (List.length (store key)).

(** A store whose scope "minecraft" holds 30 records, the bound the
    manager is created with, and collaborators that answer from it. *)
Definition full_store : Store :=
  fun key => if String.eqb key "minecraft" then repeat sample_record 30 else [].

Definition empty_store : Store := fun _ => [].

Definition full_scope_env : Env :=
  fixed_env (inl (repeat sample_record 30)) (inl (Some "Previous conversation"))
            (fun _ => inl [ ("total_messages", 30%Z) ])
            (inl [ "minecraft_chat_history" ])
            (inl (RespOther "ok")) (inl tt).

Definition sample_clock : nat -> string := fun _ => "2024-05-02T09:00:00".

(* ===================================================================== *)
(** * Properties *)
(* ===================================================================== *)

(** ** Strings *)

Lemma startswith_iff (p s : string) :
  PyStr.startswith p s = true <-> exists post, s = p ++ post.
Proof.
  revert s. induction p as [|a p IH]; intros s; simpl.
  - split; [intros _; now exists s | reflexivity].
  - destruct s as [|b s].
    + split; [discriminate | intros [post H]; discriminate].
    + rewrite andb_true_iff, Ascii.eqb_eq, IH. split.
      * intros [-> [post ->]]. now exists post.
      * intros [post H]. injection H as -> ->. split; [reflexivity | now exists post].
Qed.

Lemma contains_iff (p s : string) :
  PyStr.contains p s = true <-> PyStr.occurs_in p s.
Proof.
  unfold PyStr.occurs_in. induction s as [|b s IH].
  - simpl. rewrite orb_false_r, startswith_iff. split.
    + intros [post H]. now exists EmptyString, post.
    + intros [pre [post H]]. destruct pre; simpl in H.
      * now exists post.
      * discriminate.
  - cbn [PyStr.contains]. rewrite orb_true_iff, startswith_iff, IH. split.
    + intros [[post H] | [pre [post H]]].
      * now exists EmptyString, post.
      * exists (String b pre), post. simpl. now rewrite H.
    + intros [pre [post H]]. destruct pre as [|c pre]; simpl in H.
      * left. now exists post.
      * right. injection H as _ H. now exists pre, post.
Qed.

Lemma contains_false_iff (p s : string) :
  PyStr.contains p s = false <-> ~ PyStr.occurs_in p s.
Proof.
  rewrite <- contains_iff. destruct (PyStr.contains p s); split; intros H;
    try reflexivity; try discriminate; try (intros H'; discriminate).
  now contradiction H.
Qed.

Lemma lower_app (a b : string) :
  PyStr.lower (a ++ b) = PyStr.lower a ++ PyStr.lower b.
Proof. induction a as [|c a IH]; simpl; [reflexivity | now rewrite IH]. Qed.

Lemma lower_split (s a b : string) :
  PyStr.lower s = a ++ b ->
  exists a' b', s = a' ++ b' /\ PyStr.lower a' = a /\ PyStr.lower b' = b.
Proof.
  revert s. induction a as [|c a IH]; intros s H; simpl in H.
  - exists EmptyString, s. auto.
  - destruct s as [|d s]; simpl in H; [discriminate|].
    injection H as Hc H. destruct (IH _ H) as (a' & b' & -> & Ha & Hb).
    exists (String d a'), b'. simpl. now rewrite Hc, Ha.
Qed.

(** The test [pattern in message.lower()] finds the occurrences of the
    pattern in the message whatever their case. *)
Lemma contains_lower_iff (p message : string) :
  PyStr.contains p (PyStr.lower message) = true <->
  exists pre mid post,
    message = pre ++ mid ++ post /\ PyStr.lower mid = p.
Proof.
  rewrite contains_iff. unfold PyStr.occurs_in. split.
  - intros (pre & post & H).
    destruct (lower_split _ _ _ H) as (pre' & rest & -> & _ & Hrest).
    destruct (lower_split _ _ _ Hrest) as (mid & post' & -> & Hmid & _).
    now exists pre', mid, post'.
  - intros (pre & mid & post & -> & <-).
    exists (PyStr.lower pre), (PyStr.lower post). now rewrite !lower_app.
Qed.

(** ** The query interpreter *)

Example parse_yesterday :
  parse_temporal_query "What did I ask YESTERDAY?" = Temporal 24.
Proof. reflexivity. Qed.

Example parse_last_24_hours :
  parse_temporal_query "in the last 24 hours" = Temporal 24.
Proof. reflexivity. Qed.

Example parse_few_hours_today :
  parse_temporal_query "Today, in the last few hours" = Temporal 3.
Proof. reflexivity. Qed.

Example parse_plain :
  parse_temporal_query "How do I craft a pickaxe?" = NotTemporal.
Proof. reflexivity. Qed.

(** The loop returns the window of the first item whose pattern occurs. *)
Lemma scan_patterns_first (earlier later : list (string * Z))
    (p : string) (h : Z) (s : string) :
  (forall q, In q (map fst earlier) -> ~ PyStr.occurs_in q s) ->
  PyStr.occurs_in p s ->
  scan_patterns (earlier ++ (p, h) :: later) s = Temporal h.
Proof.
  intros Hnone Hp. induction earlier as [|[q k] earlier IH]; simpl.
  - apply contains_iff in Hp. now rewrite Hp.
  - assert (Hq : PyStr.contains q s = false).
    { apply contains_false_iff, Hnone. now left. }
    rewrite Hq. apply IH. intros q' Hin. apply Hnone. now right.
Qed.

(** The loop falls through when no pattern occurs. *)
Lemma scan_patterns_none (items : list (string * Z)) (s : string) :
  (forall q, In q (map fst items) -> ~ PyStr.occurs_in q s) ->
  scan_patterns items s = NotTemporal.
Proof.
  intros Hnone. induction items as [|[q k] items IH]; simpl; [reflexivity|].
  assert (Hq : PyStr.contains q s = false).
  { apply contains_false_iff, Hnone. now left. }
  rewrite Hq. apply IH. intros q' Hin. apply Hnone. now right.
Qed.

(** A table without repeated keys splits at a key the way its list of keys
    does. *)
Lemma split_at_key (items : list (string * Z)) (earlier later : list string)
    (p : string) (h : Z) :
  NoDup (map fst items) ->
  map fst items = (earlier ++ p :: later)%list ->
  In (p, h) items ->
  exists l1 l2,
    items = (l1 ++ (p, h) :: l2)%list /\ map fst l1 = earlier.
Proof.
  revert earlier. induction items as [|[q k] items IH]; intros earlier Hnd Hkeys Hin.
  - destruct Hin.
  - simpl in Hkeys. inversion Hnd as [|? ? Hnotin Hnd']; subst.
    destruct earlier as [|e earlier]; simpl in Hkeys.
    + injection Hkeys as -> Hrest. destruct Hin as [Heq | Hin].
      * injection Heq as ->. now exists [], items.
      * exfalso. apply Hnotin. now apply (in_map fst) in Hin.
    + injection Hkeys as -> Hrest. destruct Hin as [Heq | Hin].
      * injection Heq as -> ->. exfalso. apply Hnotin. rewrite Hrest.
        apply in_or_app. right. now left.
      * destruct (IH earlier Hnd' Hrest Hin) as (l1 & l2 & -> & Hl1).
        exists ((e, k) :: l1), l2. simpl. now rewrite Hl1.
Qed.

Lemma temporal_patterns_keys_NoDup : NoDup (map fst temporal_patterns).
Proof.
  simpl. repeat constructor; simpl; intuition discriminate.
Qed.

(** Claim C3.  The interpreter tests each table phrase by case-insensitive
    substring matching: for a phrase of the table, the test
    [pattern in message_lower] succeeds exactly when the lowercased message
    contains the phrase as a substring, which is exactly when the message
    holds a piece that lowercases to the phrase.  When one of the listed
    phrases is the match, the result is temporal with the listed window:
    "yesterday" 24, "last hour" 1, "past hour" 1, "last 2 hours" 2,
    "today" 24, "last 24 hours" 24, "this morning" 12. *)
Theorem parse_temporal_query_phrase_windows (message p : string) (h : Z) :
  In (p, h) [ ("yesterday", 24%Z); ("last hour", 1%Z); ("past hour", 1%Z);
              ("last 2 hours", 2%Z); ("today", 24%Z);
              ("last 24 hours", 24%Z); ("this morning", 12%Z) ] ->
  In (p, h) temporal_patterns /\
  (PyStr.contains p (PyStr.lower message) = true <->
   PyStr.occurs_in p (PyStr.lower message)) /\
  (PyStr.contains p (PyStr.lower message) = true <->
   exists pre mid post,
     message = pre ++ mid ++ post /\ PyStr.lower mid = p) /\
  (is_the_match message p ->
   parse_temporal_query message = Temporal h).
Proof.
  intros Hlisted.
  assert (Htable : In (p, h) temporal_patterns).
  { simpl in Hlisted. simpl. intuition. }
  split; [exact Htable|]. split; [apply contains_iff|].
  split; [apply contains_lower_iff|].
  intros [Hocc (earlier & h' & later & Hsplit & Hnone)].
  unfold parse_temporal_query. cbv zeta. rewrite Hsplit.
  rewrite (scan_patterns_first earlier later p h' _ Hnone Hocc).
  f_equal.
  assert (Hkeys : map fst temporal_patterns
                  = (map fst earlier ++ p :: map fst later)%list).
  { rewrite Hsplit, map_app. reflexivity. }
  destruct (split_at_key _ _ _ p h temporal_patterns_keys_NoDup Hkeys Htable)
    as (l1 & l2 & Hsplit' & Hl1).
  rewrite Hsplit in Hsplit'.
  assert (Hlen : List.length earlier = List.length l1).
  { rewrite <- (length_map fst earlier), <- (length_map fst l1). now rewrite Hl1. }
  apply (f_equal (skipn (List.length earlier))) in Hsplit'.
  rewrite skipn_app, skipn_all, Nat.sub_diag in Hsplit'. simpl in Hsplit'.
  rewrite Hlen, skipn_app, skipn_all, Nat.sub_diag in Hsplit'. simpl in Hsplit'.
  now injection Hsplit' as ->.
Qed.

Lemma parse_temporal_query_phrase_windows_witness :
  parse_temporal_query "Anything from THIS Morning?" = Temporal 12.
Proof.
  apply (parse_temporal_query_phrase_windows
           "Anything from THIS Morning?" "this morning" 12%Z).
  - simpl. tauto.
  - split.
    + exists "anything from ", "?". reflexivity.
    + exists [ ("yesterday", 24%Z); ("last hour", 1%Z); ("past hour", 1%Z);
               ("last 2 hours", 2%Z); ("last few hours", 3%Z);
               ("today", 24%Z); ("last 24 hours", 24%Z) ], 12%Z, [].
      split; [reflexivity|].
      intros q Hq. apply contains_false_iff.
      simpl in Hq. repeat destruct Hq as [<- | Hq]; try reflexivity.
      destruct Hq.
Defined.

(** Claim C4.  The table is scanned in the fixed order yesterday, last
    hour, past hour, last 2 hours, last few hours, today, last 24 hours,
    this morning: when a phrase occurs in the lowercased message and none
    of the phrases before it in that order does, the result is that
    phrase's window, whichever later phrases occur as well. *)
Theorem parse_temporal_query_first_match_wins
    (message p : string) (h : Z) (earlier later : list string) :
  [ "yesterday"; "last hour"; "past hour"; "last 2 hours"; "last few hours";
    "today"; "last 24 hours"; "this morning" ] = (earlier ++ p :: later)%list ->
  In (p, h) temporal_patterns ->
  PyStr.occurs_in p (PyStr.lower message) ->
  (forall q, In q earlier -> ~ PyStr.occurs_in q (PyStr.lower message)) ->
  map fst temporal_patterns = (earlier ++ p :: later)%list /\
  parse_temporal_query message = Temporal h.
Proof.
  intros Horder Hin Hocc Hnone.
  assert (Hkeys : map fst temporal_patterns = (earlier ++ p :: later)%list).
  { rewrite <- Horder. reflexivity. }
  split; [exact Hkeys|].
  destruct (split_at_key _ _ _ p h temporal_patterns_keys_NoDup Hkeys Hin)
    as (l1 & l2 & Hsplit & Hl1).
  unfold parse_temporal_query. cbv zeta. rewrite Hsplit.
  apply scan_patterns_first; [|exact Hocc].
  rewrite Hl1. exact Hnone.
Qed.

Lemma parse_temporal_query_first_match_wins_witness :
  parse_temporal_query "Since the last hour or this morning, today?" = Temporal 1.
Proof.
  apply (parse_temporal_query_first_match_wins
           "Since the last hour or this morning, today?" "last hour" 1%Z
           [ "yesterday" ]
           [ "past hour"; "last 2 hours"; "last few hours"; "today";
             "last 24 hours"; "this morning" ]).
  - reflexivity.
  - simpl. tauto.
  - exists "since the ", " or this morning, today?". reflexivity.
  - intros q [<- | []]. apply contains_false_iff. reflexivity.
Defined.

(** Claim C5.  A message whose lowercased text contains none of the table
    phrases is classified as non-temporal: the result carries no window. *)
Theorem parse_temporal_query_no_phrase (message : string) :
  (forall p, In p (map fst temporal_patterns) ->
             ~ PyStr.occurs_in p (PyStr.lower message)) ->
  parse_temporal_query message = NotTemporal /\
  is_temporal (parse_temporal_query message) = false.
Proof.
  intros Hnone. unfold parse_temporal_query. cbv zeta.
  rewrite (scan_patterns_none _ _ Hnone). split; reflexivity.
Qed.

Lemma parse_temporal_query_no_phrase_witness :
  parse_temporal_query "How do I craft a pickaxe?" = NotTemporal /\
  is_temporal (parse_temporal_query "How do I craft a pickaxe?") = false.
Proof.
  apply parse_temporal_query_no_phrase.
  intros p Hp. apply contains_false_iff.
  simpl in Hp. repeat destruct Hp as [<- | Hp]; try reflexivity.
  destruct Hp.
Defined.

(** ** Running handlers *)

(** A run of [h >>= f] is a run of [h] followed, when [h] returns, by a
    run of [f] on what it returned. *)
Lemma run_hbind {E A B} (h : Handler E A) (f : A -> Handler E B)
    (env : Env) (mgr : ChatHistoryManager) (n : nat) :
  run (hbind h f) env mgr n =
  match outcome (run h env mgr n) with
  | Returned a =>
      let r := run h env mgr n in
      let r' := run (f a) env (manager r) (n + List.length (trace r)) in
      {| trace := (trace r ++ trace r')%list; outcome := outcome r';
         manager := manager r' |}
  | Raised e =>
      let r := run h env mgr n in
      {| trace := trace r; outcome := Raised e; manager := manager r |}
  end.
Proof.
  revert mgr n.
  induction h as [a | e | X c k IH | k IH | v k IH]; intros mgr n; simpl.
  - rewrite Nat.add_0_r. now destruct (run (f a) env mgr n).
  - reflexivity.
  - rewrite IH. destruct (outcome (run (k (env X c n)) env mgr (S n)));
      simpl; [|reflexivity].
    now rewrite Nat.add_succ_r.
  - apply IH.
  - apply IH.
Qed.

(** A run of [try: body / except: handler] is a run of [body] followed,
    when [body] raises, by a run of the handler. *)
Lemma run_try_except {E E' A} (body : Handler E A) (handler : E -> Handler E' A)
    (env : Env) (mgr : ChatHistoryManager) (n : nat) :
  run (try_except body handler) env mgr n =
  match outcome (run body env mgr n) with
  | Returned a =>
      let r := run body env mgr n in
      {| trace := trace r; outcome := Returned a; manager := manager r |}
  | Raised e =>
      let r := run body env mgr n in
      let r' := run (handler e) env (manager r) (n + List.length (trace r)) in
      {| trace := (trace r ++ trace r')%list; outcome := outcome r';
         manager := manager r' |}
  end.
Proof.
  revert mgr n.
  induction body as [a | e | X c k IH | k IH | v k IH]; intros mgr n; simpl.
  - reflexivity.
  - rewrite Nat.add_0_r. now destruct (run (handler e) env mgr n).
  - rewrite IH. destruct (outcome (run (k (env X c n)) env mgr (S n)));
      simpl; [reflexivity|].
    now rewrite Nat.add_succ_r.
  - apply IH.
  - apply IH.
Qed.

(** ** The settings endpoints *)

Example update_history_settings_50 (env : Env) :
  let r := run (update_history_settings 50) env chat_history_manager 0 in
  outcome r = Returned (SettingsUpdated.make "Chat history settings updated" 50)
  /\ max_history (manager r) = 50%Z.
Proof. split; reflexivity. Qed.

Lemma update_history_settings_in_range (v : Z) (env : Env)
    (mgr : ChatHistoryManager) (n : nat) :
  (1 <= v <= 100)%Z ->
  let r := run (update_history_settings v) env mgr n in
  outcome r = Returned (SettingsUpdated.make "Chat history settings updated" v)
  /\ max_history (manager r) = v
  /\ persist_directory (manager r) = persist_directory mgr.
Proof.
  intros Hv. unfold update_history_settings.
  destruct (Z.ltb_spec v 1); [lia|].
  rewrite Z.gtb_ltb. destruct (Z.ltb_spec 100 v); [lia|].
  simpl. auto.
Qed.

(** Claim C1.  A requested [max_history] below 1 or above 100 is rejected
    with an error (HTTP 400) and the manager keeps its setting: the
    manager object is unchanged, and a later read of the settings returns
    the value it had before the rejected call. *)
Theorem update_history_settings_out_of_range (v : Z) (env : Env)
    (mgr : ChatHistoryManager) (n : nat) :
  (v < 1 \/ v > 100)%Z ->
  let r := run (update_history_settings v) env mgr n in
  outcome r = Raised {| status_code := 400;
                        detail := "max_history must be between 1 and 100" |}
  /\ manager r = mgr
  /\ forall env' n',
       outcome (run get_history_settings env' (manager r) n')
       = Returned (Settings.make (max_history mgr) "./vector_db").
Proof.
  intros Hv. unfold update_history_settings.
  rewrite Z.gtb_ltb.
  destruct (Z.ltb_spec v 1) as [Hlo | Hlo].
  - simpl. repeat split.
  - destruct (Z.ltb_spec 100 v) as [Hhi | Hhi]; [|lia].
    simpl. repeat split.
Qed.

Lemma update_history_settings_out_of_range_witness :
  (outcome (run (update_history_settings 0) quiet_env chat_history_manager 0)
   = Raised {| status_code := 400;
               detail := "max_history must be between 1 and 100" |}
   /\ outcome (run get_history_settings quiet_env
                  (manager (run (update_history_settings 0) quiet_env
                                chat_history_manager 0)) 0)
      = Returned (Settings.make 30 "./vector_db"))
  /\
  (outcome (run (update_history_settings 101) quiet_env chat_history_manager 0)
   = Raised {| status_code := 400;
               detail := "max_history must be between 1 and 100" |}
   /\ outcome (run get_history_settings quiet_env
                  (manager (run (update_history_settings 101) quiet_env
                                chat_history_manager 0)) 0)
      = Returned (Settings.make 30 "./vector_db")).
Proof.
  split.
  - destruct (update_history_settings_out_of_range
                0 quiet_env chat_history_manager 0) as (Ho & _ & Hget);
      [lia | split; [exact Ho | exact (Hget quiet_env 0%nat)]].
  - destruct (update_history_settings_out_of_range
                101 quiet_env chat_history_manager 0) as (Ho & _ & Hget);
      [lia | split; [exact Ho | exact (Hget quiet_env 0%nat)]].
Defined.

(** ** The scope listing *)

Example game_name_of_zelda :
  game_name_of "the_legend_of_zelda_chat_history" = "The Legend Of Zelda".
Proof. reflexivity. Qed.

Lemma run_collect_games (env : Env) (stats_of : string -> dict Z) :
  (forall game k, env _ (get_stats game) k = inl (stats_of game)) ->
  forall collections mgr n,
    let kept := filter (PyStr.endswith "_chat_history") collections in
    run (collect_games collections) env mgr n =
    {| trace := map (fun name => Called (get_stats (game_name_of name))) kept;
       outcome := Returned (map (game_entry stats_of) kept);
       manager := mgr |}.
Proof.
  intros Hstats collections.
  induction collections as [|name rest IH]; intros mgr n; simpl.
  - reflexivity.
  - destruct (PyStr.endswith "_chat_history" name); simpl.
    + rewrite Hstats. simpl. rewrite run_hbind, IH. simpl.
      now rewrite app_nil_r.
    + apply IH.
Qed.

(** What the loop does with a store that answers [list_collections] with
    [collections] and [get_stats] with the statistics [stats_of]: the
    listing has one entry for every collection
    whose name ends with [_chat_history], in the store's order and
    whatever its record count: the derived game name, the collection name
    and the [total_messages] that [get_stats] reports for the game name
    (0 when the statistics lack it); [total_games] is their number. *)
Theorem list_games_with_history_lists_collections (env : Env)
    (mgr : ChatHistoryManager) (n : nat)
    (collections : list string) (stats_of : string -> dict Z) :
  env _ list_collections n = inl collections ->
  (forall game k, env _ (get_stats game) k = inl (stats_of game)) ->
  let kept := filter (PyStr.endswith "_chat_history") collections in
  outcome (run list_games_with_history env mgr n)
  = Returned {| games := map (game_entry stats_of) kept;
                total_games := Z.of_nat (List.length kept) |}.
Proof.
  intros Hcollections Hstats kept. unfold list_games_with_history.
  rewrite run_try_except. simpl. rewrite Hcollections. simpl.
  rewrite run_hbind, (run_collect_games env stats_of Hstats). simpl.
  now rewrite length_map.
Qed.

Lemma list_games_with_history_lists_collections_witness :
  outcome (run list_games_with_history empty_scope_env chat_history_manager 0)
  = Returned {| games := [ GameEntry.make "Minecraft" "minecraft_chat_history" 0 ];
                total_games := 1 |}.
Proof.
  apply (list_games_with_history_lists_collections
           empty_scope_env chat_history_manager 0
           [ "minecraft_chat_history" ]
           (fun _ => [ ("total_messages", 0%Z) ])).
  - reflexivity.
  - intros game k. reflexivity.
Defined.

(** Claim C2.  The listing does not leave out the scopes that hold no
    record, although the endpoint announces the games that have chat
    history: nothing in the loop looks at the record count.  With a store
    whose only collection, [minecraft_chat_history], holds no record, the
    game of that collection is listed, with [total_messages] 0. *)
Theorem list_games_with_history_lists_empty_scope :
  scope_holds_no_record empty_scope_env "Minecraft" /\
  outcome (run list_games_with_history empty_scope_env chat_history_manager 0)
  = Returned {| games := [ GameEntry.make "Minecraft"
                                          "minecraft_chat_history" 0 ];
                total_games := 1 |} /\
  ~ empty_scopes_not_listed empty_scope_env.
Proof.
  assert (Hempty : scope_holds_no_record empty_scope_env "Minecraft").
  { intros n. exists [ ("total_messages", 0%Z) ]. split; reflexivity. }
  split; [exact Hempty | split; [reflexivity|]].
  intros Hclaim. apply (Hclaim "Minecraft" Hempty).
  exists {| games := [ GameEntry.make "Minecraft" "minecraft_chat_history" 0 ];
            total_games := 1 |}.
  split; [reflexivity | simpl; now left].
Qed.

(** ** Dict lookups *)

Lemma dict_lookup_first {V} (key : string) (earlier later : dict V) (v : V) :
  (forall w, ~ In (key, w) earlier) ->
  dict_lookup key (earlier ++ (key, v) :: later)%list = Some v.
Proof.
  intros Hnone. induction earlier as [|[k w] earlier IH]; simpl.
  - now rewrite String.eqb_refl.
  - destruct (String.eqb_spec k key) as [-> | Hk].
    + exfalso. apply (Hnone w). now left.
    + apply IH. intros w' Hin. apply (Hnone w'). now right.
Qed.

Lemma dict_lookup_absent {V} (key : string) (items : dict V) :
  (forall w, ~ In (key, w) items) -> dict_lookup key items = None.
Proof.
  intros Hnone. induction items as [|[k w] items IH]; simpl; [reflexivity|].
  destruct (String.eqb_spec k key) as [-> | Hk].
  - exfalso. apply (Hnone w). now left.
  - apply IH. intros w' Hin. apply (Hnone w'). now right.
Qed.

(** The text stored for a response: the value under ["response"] when
    the response is a dict that has the key, and [str(response)]
    otherwise. *)
Lemma response_text_of_spec (response : Response) :
  match response with
  | RespDict items str =>
      (forall earlier v later,
         items = (earlier ++ ("response", v) :: later)%list ->
         (forall w, ~ In ("response", w) earlier) ->
         response_text_of response = v) /\
      ((forall w, ~ In ("response", w) items) ->
       response_text_of response = str)
  | RespOther str => response_text_of response = str
  end.
Proof.
  destruct response as [items str | str]; [|reflexivity].
  unfold response_text_of, dict_get. split.
  - intros earlier v later -> Hnone. now rewrite dict_lookup_first.
  - intros Hnone. now rewrite dict_lookup_absent.
Qed.

(** ** The [/chat] handler *)

Section ChatProperties.

Variable isoformat_HM : string -> string + string.

(** The summary loop makes no call: it returns its lines or raises. *)
Lemma summarize_no_call (history : list MessageRecord) :
  (exists lines, summarize isoformat_HM history = Return lines) \/
  (exists e, summarize isoformat_HM history = Raise e).
Proof.
  induction history as [|msg rest IH]; simpl.
  - left. now exists [].
  - destruct (isoformat_HM (timestamp msg)) as [time_str | e].
    + destruct IH as [[lines ->] | [e ->]]; simpl; eauto.
    + eauto.
Qed.

(** One step of evaluation that keeps the texts folded. *)
Ltac step :=
  cbn -[summarize no_history_reply enhance response_text_of PyStr.join
        String.append getattr].

(** Case analysis on the answers of the collaborators during a run. *)
Ltac answers :=
  repeat match goal with
         | |- context [match ?env ?X ?c ?n with inl _ => _ | inr _ => _ end] =>
             let a := fresh "answer" in
             let Ha := fresh "Hanswer" in
             destruct (env X c n) as [a | a] eqn:Ha; step
         end.

Lemma chat_temporal_run (message : ChatMessage.t) (env : Env)
    (mgr : ChatHistoryManager) (n : nat) (h : Z) :
  parse_temporal_query (ChatMessage.message message) = Temporal h ->
  let game := getattr (ChatMessage.game message) "general" in
  let user_message := ChatMessage.message message in
  let r := run (chat isoformat_HM message) env mgr n in
  manager r = mgr /\
  match env _ (get_recent_history game None (Some h)) n with
  | inr e =>
      trace r = [ Called (get_recent_history game None (Some h)) ] /\
      outcome r = Raised {| status_code := 500; detail := "Chat error: " ++ e |}
  | inl history =>
      match (match history with
             | [] => Return (no_history_reply h game)
             | _ :: _ => hbind (summarize isoformat_HM history)
                           (fun lines => Return (PyStr.join PyStr.nl lines))
             end : Handler string string) with
      | Return text =>
          trace r = [ Called (get_recent_history game None (Some h));
                      Called (add_message game user_message text) ] /\
          outcome r =
          match env _ (add_message game user_message text) (S n) with
          | inl _ => Returned (TemporalReply text game true)
          | inr e => Raised {| status_code := 500;
                               detail := "Chat error: " ++ e |}
          end
      | Raise e =>
          trace r = [ Called (get_recent_history game None (Some h)) ] /\
          outcome r = Raised {| status_code := 500;
                                detail := "Chat error: " ++ e |}
      | _ => False
      end
  end.
Proof.
  intros Hparse game user_message r. subst r game user_message.
  unfold chat. rewrite Hparse. step.
  destruct (env _ (get_recent_history _ None (Some h)) n)
    as [history | e]; step; [|auto].
  destruct history as [|msg rest]; step.
  - answers; auto.
  - destruct (summarize_no_call (msg :: rest)) as [[lines ->] | [e ->]];
      step; [|auto].
    answers; auto.
Qed.

(** What a temporal request returns names the request's scope. *)
Lemma chat_temporal_result_shape (message : ChatMessage.t) (env : Env)
    (mgr : ChatHistoryManager) (n : nat) (h : Z) (result : ChatResult) :
  parse_temporal_query (ChatMessage.message message) = Temporal h ->
  outcome (run (chat isoformat_HM message) env mgr n) = Returned result ->
  exists text,
    result = TemporalReply text
               (getattr (ChatMessage.game message) "general") true.
Proof.
  intros Hparse Hout.
  destruct (chat_temporal_run message env mgr n h Hparse) as [_ Hrun].
  destruct (env _ (get_recent_history _ None (Some h)) n)
    as [history | e]; [|destruct Hrun as [_ Hr]; congruence].
  destruct (match history with [] => _ | _ :: _ => _ end) as [text | e | | | ];
    try contradiction; destruct Hrun as [_ Hr]; [|congruence].
  rewrite Hr in Hout.
  destruct (env _ (add_message _ _ text) (S n)); [|discriminate].
  injection Hout as <-. now exists text.
Qed.

(** What a non-temporal request returns is the model's response. *)
Lemma chat_model_result_shape (message : ChatMessage.t) (env : Env)
    (mgr : ChatHistoryManager) (n : nat) (result : ChatResult) :
  parse_temporal_query (ChatMessage.message message) = NotTemporal ->
  outcome (run (chat isoformat_HM message) env mgr n) = Returned result ->
  exists response, result = ModelReply response.
Proof.
  intros Hparse. unfold chat. rewrite Hparse. step.
  destruct (getattr (ChatMessage.include_history message) true); step.
  - answers; try discriminate;
      destruct (truthy answer); step; answers; try discriminate;
      intros [= <-]; eauto.
  - answers; try discriminate. intros [= <-]; eauto.
Qed.

(** The calls of a temporal request that returns a response: it
    has made two calls: the retrieval of the window, then one [add_message]
    for the request's scope with the user's message and the reply text;
    the reply text is the fixed no-history reply when the window is empty
    and the joined summary lines otherwise, and it is the text returned. *)
Lemma chat_temporal_stores_exchange (message : ChatMessage.t) (env : Env)
    (mgr : ChatHistoryManager) (n : nat) (h : Z) (result : ChatResult) :
  parse_temporal_query (ChatMessage.message message) = Temporal h ->
  outcome (run (chat isoformat_HM message) env mgr n) = Returned result ->
  let game := getattr (ChatMessage.game message) "general" in
  let user_message := ChatMessage.message message in
  exists history text,
    env _ (get_recent_history game None (Some h)) n = inl history /\
    (history = [] -> text = no_history_reply h game) /\
    (history <> [] ->
     exists lines, summarize isoformat_HM history = Return lines /\
                   text = PyStr.join PyStr.nl lines) /\
    trace (run (chat isoformat_HM message) env mgr n)
    = [ Called (get_recent_history game None (Some h));
        Called (add_message game user_message text) ] /\
    stored_exchanges (trace (run (chat isoformat_HM message) env mgr n))
    = [ (game, user_message, text) ] /\
    env _ (add_message game user_message text) (S n) = inl tt /\
    result = TemporalReply text game true.
Proof.
  intros Hparse Hout game user_message.
  destruct (chat_temporal_run message env mgr n h Hparse) as [_ Hrun].
  fold game user_message in Hrun.
  destruct (env _ (get_recent_history game None (Some h)) n)
    as [history | e]; [|destruct Hrun as [_ Hr]; congruence].
  exists history. destruct history as [|msg rest].
  - destruct Hrun as [Htrace Hr]. exists (no_history_reply h game).
    rewrite Htrace. rewrite Hr in Hout.
    destruct (env _ (add_message game user_message (no_history_reply h game)) (S n))
      as [[] | e]; [|discriminate].
    injection Hout as <-. repeat split; try reflexivity. congruence.
  - destruct (summarize_no_call (msg :: rest)) as [[lines Hl] | [e Hl]];
      rewrite Hl in Hrun; cbn [hbind] in Hrun;
      [|destruct Hrun as [_ Hr]; congruence].
    destruct Hrun as [Htrace Hr]. exists (PyStr.join PyStr.nl lines).
    rewrite Htrace. rewrite Hr in Hout.
    destruct (env _ (add_message game user_message (PyStr.join PyStr.nl lines)) (S n))
      as [[] | e]; [|discriminate].
    injection Hout as <-. repeat split; try reflexivity; try discriminate.
    intros _. now exists lines.
Qed.

(** A temporal request returns as soon as the two calls succeed and the
    timestamps of the window are well formed. *)
Lemma chat_temporal_returns (message : ChatMessage.t) (env : Env)
    (mgr : ChatHistoryManager) (n : nat) (h : Z)
    (history : list MessageRecord) (lines : list string) :
  parse_temporal_query (ChatMessage.message message) = Temporal h ->
  let game := getattr (ChatMessage.game message) "general" in
  let user_message := ChatMessage.message message in
  env _ (get_recent_history game None (Some h)) n = inl history ->
  summarize isoformat_HM history = Return lines ->
  (forall text, env _ (add_message game user_message text) (S n) = inl tt) ->
  exists text,
    outcome (run (chat isoformat_HM message) env mgr n)
    = Returned (TemporalReply text game true).
Proof.
  intros Hparse game user_message Hhistory Hlines Hadd.
  destruct (chat_temporal_run message env mgr n h Hparse) as [_ Hrun].
  fold game user_message in Hrun. rewrite Hhistory in Hrun.
  destruct history as [|msg rest].
  - destruct Hrun as [_ Hr]. rewrite Hadd in Hr. eauto.
  - rewrite Hlines in Hrun. cbn [hbind] in Hrun.
    destruct Hrun as [_ Hr]. rewrite Hadd in Hr. eauto.
Qed.

(** Claim C6.  In the non-temporal flow one message goes to the model.
    With history inclusion on (the default), it is the context summary,
    a separator and the user's message when the summary is not empty, and
    the user's message alone when the summary is absent or empty; with
    history inclusion off it is the user's message alone. *)
Theorem chat_sends_context_before_message (message : ChatMessage.t) (env : Env)
    (mgr : ChatHistoryManager) (n : nat) :
  parse_temporal_query (ChatMessage.message message) = NotTemporal ->
  let game := getattr (ChatMessage.game message) "general" in
  let history_limit := getattr (ChatMessage.history_limit message) 5%Z in
  let user_message := ChatMessage.message message in
  let sent := model_messages (trace (run (chat isoformat_HM message) env mgr n)) in
  (ChatMessage.include_history message <> Some false ->
   forall history_context,
     env _ (get_history_context game history_limit) n = inl history_context ->
     (forall summary,
        history_context = Some summary -> summary <> "" ->
        sent = [ summary ++ PyStr.nl ++ PyStr.nl ++ "---" ++ PyStr.nl ++ PyStr.nl
                 ++ "Current question: " ++ user_message ]) /\
     (history_context = None \/ history_context = Some "" ->
      sent = [ user_message ]))
  /\
  (ChatMessage.include_history message = Some false ->
   sent = [ user_message ]).
Proof.
  intros Hparse game history_limit user_message sent.
  subst sent game history_limit user_message.
  unfold chat. rewrite Hparse. step. split.
  - intros Hincl history_context Hcontext.
    assert (Hon : getattr (ChatMessage.include_history message) true = true).
    { destruct (ChatMessage.include_history message) as [[|]|];
        [reflexivity | congruence | reflexivity]. }
    rewrite Hon. step. rewrite Hcontext. step. split.
    + intros summary -> Hne. cbn [truthy getattr].
      apply String.eqb_neq in Hne. rewrite Hne. step. answers; reflexivity.
    + intros [-> | ->]; step; answers; reflexivity.
  - intros ->. cbn [getattr]. step. answers; reflexivity.
Qed.

(** Claim C7.  A non-temporal request that returns has, after the model
    call answered, made exactly one [add_message] call, its last call: for
    the request's scope, with the user's original message and the text of
    the model's response.  That text is the value under ["response"] when
    the response is a dict that has this key, and [str(response)] when the
    dict lacks the key or the response is no dict. *)
Theorem chat_stores_model_exchange (message : ChatMessage.t) (env : Env)
    (mgr : ChatHistoryManager) (n : nat) (result : ChatResult) :
  parse_temporal_query (ChatMessage.message message) = NotTemporal ->
  outcome (run (chat isoformat_HM message) env mgr n) = Returned result ->
  let game := getattr (ChatMessage.game message) "general" in
  let user_message := ChatMessage.message message in
  let image_data := ChatMessage.image_data message in
  exists before enhanced_message response text,
    trace (run (chat isoformat_HM message) env mgr n)
    = (before ++ [ Called (chat_with_gemini enhanced_message image_data);
                   Called (add_message game user_message text) ])%list /\
    env _ (chat_with_gemini enhanced_message image_data)
        (List.length before + n) = inl response /\
    stored_exchanges (trace (run (chat isoformat_HM message) env mgr n))
    = [ (game, user_message, text) ] /\
    result = ModelReply response /\
    match response with
    | RespDict items str =>
        (forall earlier v later,
           items = (earlier ++ ("response", v) :: later)%list ->
           (forall w, ~ In ("response", w) earlier) ->
           text = v) /\
        ((forall w, ~ In ("response", w) items) -> text = str)
    | RespOther str => text = str
    end.
Proof.
  intros Hparse Hout game user_message image_data.
  subst game user_message image_data. revert Hout.
  unfold chat. rewrite Hparse. step.
  destruct (getattr (ChatMessage.include_history message) true); step.
  - answers; try discriminate.
    destruct (truthy answer); step; answers; try discriminate;
      intros [= <-];
      match goal with
      | H : _ = inl ?resp |- _ =>
          match type of resp with
          | Response =>
              eexists [_], _, resp, (response_text_of resp);
              (split; [reflexivity
                      | split; [exact H
                               | split; [reflexivity
                                        | split; [reflexivity
                                                 | apply response_text_of_spec]]]])
          end
      end.
  - answers; try discriminate.
    intros [= <-].
    exists [], (ChatMessage.message message), answer, (response_text_of answer).
    split; [reflexivity
           | split; [assumption
                    | split; [reflexivity
                             | split; [reflexivity
                                      | apply response_text_of_spec]]]].
Qed.

(** A non-temporal request returns the model's response as soon as its
    calls succeed. *)
Lemma chat_model_returns (message : ChatMessage.t) (env : Env)
    (mgr : ChatHistoryManager) (n : nat) :
  parse_temporal_query (ChatMessage.message message) = NotTemporal ->
  (forall X (c : Call X) k, exists x, env X c k = inl x) ->
  exists response,
    outcome (run (chat isoformat_HM message) env mgr n)
    = Returned (ModelReply response).
Proof.
  intros Hparse Hok. unfold chat. rewrite Hparse. step.
  assert (Hnever : forall X (c : Call X) k e, env X c k <> inr e).
  { intros X c k e He. destruct (Hok X c k) as [x Hx]. congruence. }
  destruct (getattr (ChatMessage.include_history message) true); step.
  - answers; try (exfalso; eapply Hnever; eassumption).
    destruct (truthy answer); step; answers;
      try (exfalso; eapply Hnever; eassumption); eauto.
  - answers; try (exfalso; eapply Hnever; eassumption); eauto.
Qed.

(** Every call of a [/chat] request that names a scope names the
    request's scope. *)
Lemma chat_calls_one_scope (message : ChatMessage.t) (env : Env)
    (mgr : ChatHistoryManager) (n : nat) :
  let game := getattr (ChatMessage.game message) "general" in
  Forall (fun e => forall g, event_game e = Some g -> g = game)
         (trace (run (chat isoformat_HM message) env mgr n)).
Proof.
  intros game.
  destruct (parse_temporal_query (ChatMessage.message message)) as [h|] eqn:Hparse.
  - destruct (chat_temporal_run message env mgr n h Hparse) as [_ Hrun].
    fold game in Hrun.
    destruct (env _ (get_recent_history game None (Some h)) n) as [history | e].
    + destruct (match history with [] => _ | _ :: _ => _ end);
        try contradiction; destruct Hrun as [-> _];
        repeat constructor; cbn; intros g [= <-]; reflexivity.
    + destruct Hrun as [-> _].
      repeat constructor; cbn; intros g [= <-]; reflexivity.
  - subst game. unfold chat. rewrite Hparse. step.
    destruct (getattr (ChatMessage.include_history message) true); step.
    + answers; try (destruct (truthy answer); step; answers);
        repeat constructor; cbn; intros g [= <-]; reflexivity.
    + answers; repeat constructor; cbn; intros g [= <-]; reflexivity.
Qed.

(** Claim C10.  A request whose message object carries no [game]
    attribute is processed under the scope "general": it runs as the same
    request with [game] set to "general" does, every call that names a
    scope (history retrieval, context building, the appended exchange)
    names "general", and so does the reply of the temporal branch. *)
Theorem chat_default_scope_general (message : ChatMessage.t) (env : Env)
    (mgr : ChatHistoryManager) (n : nat) :
  ChatMessage.game message = None ->
  let r := run (chat isoformat_HM message) env mgr n in
  r = run (chat isoformat_HM
             (ChatMessage.make (ChatMessage.message message)
                               (ChatMessage.image_data message)
                               (Some "general")
                               (ChatMessage.include_history message)
                               (ChatMessage.history_limit message)))
          env mgr n /\
  Forall (fun e => forall g, event_game e = Some g -> g = "general") (trace r) /\
  (forall g u a, In (g, u, a) (stored_exchanges (trace r)) -> g = "general") /\
  (forall text g flag,
     outcome r = Returned (TemporalReply text g flag) -> g = "general").
Proof.
  intros Hgame r. subst r.
  pose proof (chat_calls_one_scope message env mgr n) as Hscope.
  cbv zeta in Hscope. rewrite Hgame in Hscope. cbn [getattr] in Hscope.
  split; [|split; [exact Hscope | split]].
  - destruct message as [m i g incl lim]. cbn in Hgame. subst g. reflexivity.
  - intros g u a.
    induction Hscope as [|e tr He _ IH]; cbn; [tauto|].
    destruct e as [X c]. destruct c; cbn; try exact IH.
    intros [[= <- _ _] | Hin]; [|now apply IH].
    now apply He.
  - intros text g flag Hout.
    destruct (parse_temporal_query (ChatMessage.message message)) as [h|] eqn:Hparse.
    + destruct (chat_temporal_result_shape message env mgr n h _ Hparse Hout)
        as [text' Hres].
      rewrite Hgame in Hres. cbn [getattr] in Hres. congruence.
    + destruct (chat_model_result_shape message env mgr n _ Hparse Hout)
        as [response Hres]. discriminate.
Qed.

End ChatProperties.

(** ** Sample requests *)

Example temporal_request_run :
  let r := run (chat sample_isoformat_HM temporal_request) history_env
               chat_history_manager 0 in
  outcome r
  = Returned (TemporalReply
                ("At 10:30:" ++ PyStr.nl ++ "  You: How do I find diamonds?"
                 ++ PyStr.nl ++ "  Me: Mine at deep levels....")
                "minecraft" true).
Proof. reflexivity. Qed.

Example temporal_request_empty_window :
  outcome (run (chat sample_isoformat_HM temporal_request) quiet_env
               chat_history_manager 0)
  = Returned (TemporalReply
                "I don't have any conversation history from the last 24 hours for minecraft."
                "minecraft" true).
Proof. reflexivity. Qed.

Lemma chat_sends_context_before_message_witness :
  model_messages
    (trace (run (chat sample_isoformat_HM plain_request) history_env
                chat_history_manager 0))
  = [ "Previous conversation" ++ PyStr.nl ++ PyStr.nl ++ "---" ++ PyStr.nl
      ++ PyStr.nl ++ "Current question: " ++ "How do I craft a pickaxe?" ]
  /\
  model_messages
    (trace (run (chat sample_isoformat_HM plain_request) quiet_env
                chat_history_manager 0))
  = [ "How do I craft a pickaxe?" ].
Proof.
  split.
  - destruct (chat_sends_context_before_message sample_isoformat_HM
                plain_request history_env chat_history_manager 0 eq_refl)
      as [Hon _].
    destruct (Hon ltac:(discriminate) (Some "Previous conversation") eq_refl)
      as [Hsummary _].
    exact (Hsummary "Previous conversation" eq_refl ltac:(discriminate)).
  - destruct (chat_sends_context_before_message sample_isoformat_HM
                plain_request quiet_env chat_history_manager 0 eq_refl)
      as [Hon _].
    destruct (Hon ltac:(discriminate) None eq_refl) as [_ Hnone].
    exact (Hnone (or_introl eq_refl)).
Defined.

Lemma chat_stores_model_exchange_witness :
  stored_exchanges
    (trace (run (chat sample_isoformat_HM plain_request) history_env
                chat_history_manager 0))
  = [ ("general", "How do I craft a pickaxe?", "Use an iron pickaxe.") ].
Proof.
  destruct (chat_stores_model_exchange sample_isoformat_HM plain_request
              history_env chat_history_manager 0
              (ModelReply (RespDict [ ("response", "Use an iron pickaxe.") ]
                                    "{...}"))
              eq_refl eq_refl)
    as (before & enhanced_message & response & text
        & _ & _ & Hstored & Hresult & Htext).
  injection Hresult as <-. destruct Htext as [Hfirst _].
  rewrite (Hfirst [] "Use an iron pickaxe." [] eq_refl (fun w Hin => Hin))
    in Hstored.
  exact Hstored.
Defined.

Example plain_request_stored :
  stored_exchanges
    (trace (run (chat sample_isoformat_HM plain_request) history_env
                chat_history_manager 0))
  = [ ("general", "How do I craft a pickaxe?", "Use an iron pickaxe.") ].
Proof. reflexivity. Qed.

Lemma chat_default_scope_general_witness :
  Forall (fun e => forall g, event_game e = Some g -> g = "general")
         (trace (run (chat sample_isoformat_HM plain_request) history_env
                     chat_history_manager 0))
  /\
  trace (run (chat sample_isoformat_HM plain_request) history_env
             chat_history_manager 0)
  = [ Called (get_history_context "general" 5);
      Called (chat_with_gemini
                ("Previous conversation" ++ PyStr.nl ++ PyStr.nl ++ "---"
                 ++ PyStr.nl ++ PyStr.nl ++ "Current question: "
                 ++ "How do I craft a pickaxe?") None);
      Called (add_message "general" "How do I craft a pickaxe?"
                          "Use an iron pickaxe.") ].
Proof.
  split; [|reflexivity].
  exact (proj1 (proj2 (chat_default_scope_general sample_isoformat_HM
                         plain_request history_env chat_history_manager 0
                         eq_refl))).
Defined.

(** ** More on the query interpreter *)

(** A window the loop returns is the window of a table item whose
    pattern occurs. *)
Lemma scan_patterns_temporal (items : list (string * Z)) (s : string) (h : Z) :
  scan_patterns items s = Temporal h ->
  exists p, In (p, h) items /\ PyStr.occurs_in p s.
Proof.
  induction items as [|[q k] items IH]; simpl; [discriminate|].
  destruct (PyStr.contains q s) eqn:Hq.
  - intros [= <-]. exists q. split; [now left | now apply contains_iff].
  - intros H. destruct (IH H) as (p & Hin & Hocc). exists p. auto.
Qed.

Lemma scan_patterns_temporal_iff (items : list (string * Z)) (s : string) :
  is_temporal (scan_patterns items s) = true <->
  exists p, In p (map fst items) /\ PyStr.occurs_in p s.
Proof.
  split.
  - destruct (scan_patterns items s) as [h|] eqn:Hscan; [|discriminate].
    intros _. destruct (scan_patterns_temporal _ _ _ Hscan) as (p & Hin & Hocc).
    exists p. split; [|exact Hocc]. now apply (in_map fst) in Hin.
  - intros (p & Hin & Hocc).
    destruct (scan_patterns items s) as [h|] eqn:Hscan; [reflexivity|].
    exfalso. revert Hscan. induction items as [|[q k] items IH]; simpl.
    + destruct Hin.
    + destruct (PyStr.contains q s) eqn:Hq; [discriminate|].
      destruct Hin as [<- | Hin].
      * apply contains_false_iff in Hq. contradiction.
      * now apply IH.
Qed.

(** X1.  The window of a temporal result is one of the five windows of the
    table: 1, 2, 3, 12 or 24 hours. *)
Theorem parse_temporal_query_window_range (message : string) (h : Z) :
  parse_temporal_query message = Temporal h ->
  In h [ 1%Z; 2%Z; 3%Z; 12%Z; 24%Z ] /\ (1 <= h <= 24)%Z.
Proof.
  intros Hparse. unfold parse_temporal_query in Hparse. cbv zeta in Hparse.
  destruct (scan_patterns_temporal _ _ _ Hparse) as (p & Hin & _).
  simpl in Hin.
  repeat (destruct Hin as [[= <- <-] | Hin]; [simpl; split; [tauto | lia]|]).
  destruct Hin.
Qed.

Lemma parse_temporal_query_window_range_witness :
  In 3%Z [ 1%Z; 2%Z; 3%Z; 12%Z; 24%Z ] /\ (1 <= 3 <= 24)%Z.
Proof.
  exact (parse_temporal_query_window_range
           "Anything in the last few hours?" 3%Z eq_refl).
Defined.

(** X2.  A message is classified as temporal exactly when some phrase of
    the table occurs in its lowercased text. *)
Theorem parse_temporal_query_temporal_iff (message : string) :
  is_temporal (parse_temporal_query message) = true <->
  exists p, In p (map fst temporal_patterns) /\
            PyStr.occurs_in p (PyStr.lower message).
Proof. apply scan_patterns_temporal_iff. Qed.

Lemma string_app_assoc (a b c : string) : (a ++ b) ++ c = a ++ (b ++ c).
Proof. induction a as [|x a IH]; simpl; [reflexivity | now rewrite IH]. Qed.

(** X3.  Text put around a temporal message keeps it temporal: the
    classification looks at occurrences, not at the whole message. *)
Theorem parse_temporal_query_in_context (message before after : string) :
  is_temporal (parse_temporal_query message) = true ->
  is_temporal (parse_temporal_query (before ++ message ++ after)) = true.
Proof.
  unfold parse_temporal_query. cbv zeta.
  rewrite !scan_patterns_temporal_iff.
  intros (p & Hin & pre & post & Hocc). exists p. split; [exact Hin|].
  exists (PyStr.lower before ++ pre), (post ++ PyStr.lower after).
  rewrite !lower_app, Hocc.
  rewrite !string_app_assoc. reflexivity.
Qed.

Lemma parse_temporal_query_in_context_witness :
  is_temporal
    (parse_temporal_query ("Tell me: " ++ "what happened today" ++ ", please"))
  = true.
Proof.
  exact (parse_temporal_query_in_context
           "what happened today" "Tell me: " ", please" eq_refl).
Defined.

(** ** More on the settings endpoints *)

(** X4.  An accepted update is what the settings endpoint reads back: for
    a value between 1 and 100 the update returns its confirmation without
    any call to a collaborator, only [max_history] changes, and a later
    read of the settings returns the new value. *)
Theorem update_then_get_history_settings (v : Z) (env env' : Env)
    (mgr : ChatHistoryManager) (n n' : nat) :
  (1 <= v <= 100)%Z ->
  let r := run (update_history_settings v) env mgr n in
  outcome r = Returned (SettingsUpdated.make "Chat history settings updated" v)
  /\ trace r = []
  /\ persist_directory (manager r) = persist_directory mgr
  /\ outcome (run get_history_settings env' (manager r) n')
     = Returned (Settings.make v "./vector_db")
  /\ manager (run get_history_settings env' (manager r) n') = manager r.
Proof.
  intros Hv. unfold update_history_settings.
  destruct (Z.ltb_spec v 1); [lia|].
  rewrite Z.gtb_ltb. destruct (Z.ltb_spec 100 v); [lia|].
  simpl. repeat split.
Qed.

Lemma update_then_get_history_settings_witness :
  outcome (run get_history_settings quiet_env
               (manager (run (update_history_settings 50) quiet_env
                             chat_history_manager 0)) 0)
  = Returned (Settings.make 50 "./vector_db").
Proof.
  destruct (update_then_get_history_settings
              50 quiet_env quiet_env chat_history_manager 0 0)
    as (_ & _ & _ & Hget & _); [lia | exact Hget].
Defined.

(** X5.  The update is accepted exactly for the values 1 to 100, and the
    setting after the call is the requested value when it is accepted and
    the former value otherwise. *)
Theorem update_history_settings_accepts_iff (v : Z) (env : Env)
    (mgr : ChatHistoryManager) (n : nat) :
  let r := run (update_history_settings v) env mgr n in
  ((exists reply, outcome r = Returned reply) <-> (1 <= v <= 100)%Z)
  /\ max_history (manager r)
     = (if (1 <=? v)%Z && (v <=? 100)%Z then v else max_history mgr).
Proof.
  unfold update_history_settings. rewrite Z.gtb_ltb.
  destruct (Z.ltb_spec v 1) as [Hlo | Hlo];
    [|destruct (Z.ltb_spec 100 v) as [Hhi | Hhi]]; simpl.
  - split.
    + split; [intros [reply H]; discriminate | lia].
    + destruct (Z.leb_spec 1 v); [lia | reflexivity].
  - split.
    + split; [intros [reply H]; discriminate | lia].
    + destruct (Z.leb_spec 1 v); [|lia].
      destruct (Z.leb_spec v 100); [lia | reflexivity].
  - split.
    + split; [lia | intros _; eauto].
    + destruct (Z.leb_spec 1 v); [|lia].
      destruct (Z.leb_spec v 100); [reflexivity | lia].
Qed.

(** ** Handlers that leave the manager alone *)

Lemma read_only_run {E A} (h : Handler E A) (env : Env)
    (mgr : ChatHistoryManager) (n : nat) :
  read_only h -> manager (run h env mgr n) = mgr.
Proof.
  intros Hro. revert n.
  induction Hro as [a | e | X c k _ IH | k _ IH]; intros n; simpl; auto.
Qed.

Lemma read_only_hbind {E A B} (h : Handler E A) (f : A -> Handler E B) :
  read_only h -> (forall a, read_only (f a)) -> read_only (hbind h f).
Proof.
  intros Hro Hf. induction Hro as [a | e | X c k _ IH | k _ IH]; simpl;
    auto; constructor; auto.
Qed.

Lemma read_only_try_except {E1 E2 A} (body : Handler E1 A)
    (handler : E1 -> Handler E2 A) :
  read_only body -> (forall e, read_only (handler e)) ->
  read_only (try_except body handler).
Proof.
  intros Hro Hh. induction Hro as [a | e | X c k _ IH | k _ IH]; simpl;
    auto; constructor; auto.
Qed.

Lemma read_only_call {X} (c : Call X) : read_only (call c).
Proof. constructor. intros [x | e]; constructor. Qed.

Lemma read_only_collect_games (collections : list string) :
  read_only (collect_games collections).
Proof.
  induction collections as [|name rest IH]; simpl; [constructor|].
  destruct (PyStr.endswith "_chat_history" name); [|exact IH].
  constructor. intros [stats | e]; simpl; [|constructor].
  apply read_only_hbind; [exact IH|]. intros more. constructor.
Qed.

Lemma read_only_list_games_with_history : read_only list_games_with_history.
Proof.
  apply read_only_try_except; [|intros e; constructor].
  apply (read_only_hbind (call list_collections)); [apply read_only_call|].
  intros collections.
  apply (read_only_hbind (collect_games collections));
    [apply read_only_collect_games|].
  intros games. constructor.
Qed.

Lemma read_only_get_chat_history (game : string) (limit hours_ago : option Z) :
  read_only (get_chat_history game limit hours_ago).
Proof.
  apply read_only_try_except; [|intros e; constructor].
  apply (read_only_hbind (call (get_recent_history game limit hours_ago)));
    [apply read_only_call|].
  intros history. constructor.
Qed.

Lemma read_only_get_chat_stats (game : string) :
  read_only (get_chat_stats game).
Proof.
  apply read_only_try_except; [|intros e; constructor].
  apply (read_only_hbind (call (get_stats game))); [apply read_only_call|].
  intros stats. constructor.
Qed.

Lemma read_only_get_history_settings : read_only get_history_settings.
Proof.
  apply read_only_try_except; [|intros e; constructor].
  constructor. intros v. constructor.
Qed.

Lemma read_only_summarize (isoformat_HM : string -> string + string)
    (history : list MessageRecord) :
  read_only (summarize isoformat_HM history).
Proof.
  destruct (summarize_no_call isoformat_HM history) as [[lines ->] | [e ->]];
    constructor.
Qed.

Lemma read_only_chat (isoformat_HM : string -> string + string)
    (message : ChatMessage.t) :
  read_only (chat isoformat_HM message).
Proof.
  unfold chat. apply read_only_try_except; [|intros e; constructor].
  cbv zeta.
  destruct (parse_temporal_query (ChatMessage.message message)) as [h|];
    cbn -[summarize].
  - constructor. intros [history | e]; cbn -[summarize]; [|constructor].
    apply read_only_hbind.
    + destruct history as [|msg rest]; [constructor|].
      apply read_only_hbind;
        [apply read_only_summarize | intros lines; constructor].
    + intros text. constructor.
      intros [[] | e]; cbn; constructor.
  - apply read_only_hbind.
    + destruct (getattr (ChatMessage.include_history message) true);
        [|constructor].
      constructor. intros [history_context | e]; cbn; [|constructor].
      destruct (truthy history_context); constructor.
    + intros enhanced_message. constructor.
      intros [response | e]; cbn; [|constructor].
      constructor. intros [[] | e]; cbn; constructor.
Qed.

(** ** Sequences of invocations *)

Lemma invoke_manager (isoformat_HM : string -> string + string)
    (i : Invocation) (env : Env) (mgr : ChatHistoryManager) (n : nat) :
  snd (invoke isoformat_HM i env mgr n) = mgr \/
  exists v, i = PostSettings v /\ (1 <= v <= 100)%Z /\
            snd (invoke isoformat_HM i env mgr n)
            = {| persist_directory := persist_directory mgr;
                 max_history := v |}.
Proof.
  destruct i as [message | game limit hours_ago | game | | v | ]; cbn [invoke snd].
  - left. apply read_only_run, read_only_chat.
  - left. apply read_only_run, read_only_get_chat_history.
  - left. apply read_only_run, read_only_get_chat_stats.
  - left. apply read_only_run, read_only_list_games_with_history.
  - unfold update_history_settings. rewrite Z.gtb_ltb.
    destruct (Z.ltb_spec v 1) as [Hlo | Hlo];
      [|destruct (Z.ltb_spec 100 v) as [Hhi | Hhi]]; simpl; auto.
    right. exists v. repeat split; lia.
  - left. apply read_only_run, read_only_get_history_settings.
Qed.

(** X6.  Whatever invocations are served, in whatever order and whatever
    the collaborators answer, a [max_history] that is between 1 and 100
    stays between 1 and 100, and [persist_directory] never changes. *)
Theorem serve_keeps_max_history_in_range
    (isoformat_HM : string -> string + string)
    (requests : list Invocation) (env : Env) (mgr : ChatHistoryManager)
    (n : nat) :
  (1 <= max_history mgr <= 100)%Z ->
  (1 <= max_history (serve isoformat_HM requests env mgr n) <= 100)%Z /\
  persist_directory (serve isoformat_HM requests env mgr n)
  = persist_directory mgr.
Proof.
  revert mgr n. induction requests as [|i rest IH]; intros mgr n Hrange.
  - simpl. auto.
  - cbn [serve].
    destruct (invoke isoformat_HM i env mgr n) as [tr mgr'] eqn:Hinvoke.
    assert (Hstep : (1 <= max_history mgr' <= 100)%Z /\
                    persist_directory mgr' = persist_directory mgr).
    { destruct (invoke_manager isoformat_HM i env mgr n)
        as [Hsame | (v & _ & Hv & Hnew)]; rewrite Hinvoke in *; cbn [snd] in *.
      - subst mgr'. auto.
      - subst mgr'. cbn. auto. }
    destruct Hstep as [Hrange' Hdir].
    destruct (IH mgr' (n + List.length tr) Hrange') as [Hfinal Hdir'].
    split; [exact Hfinal | congruence].
Qed.

Lemma serve_keeps_max_history_in_range_witness :
  (1 <= max_history
          (serve sample_isoformat_HM
                 [ PostSettings 0; PostChat plain_request; PostSettings 50;
                   PostSettings 101; GetGames; GetSettings ]
                 history_env chat_history_manager 0) <= 100)%Z.
Proof.
  apply (serve_keeps_max_history_in_range sample_isoformat_HM
           [ PostSettings 0; PostChat plain_request; PostSettings 50;
             PostSettings 101; GetGames; GetSettings ]
           history_env chat_history_manager 0).
  cbn. lia.
Defined.

Lemma serve_without_update_manager (isoformat_HM : string -> string + string)
    (requests : list Invocation) (env : Env) (mgr : ChatHistoryManager)
    (n : nat) :
  (forall v, ~ In (PostSettings v) requests) ->
  serve isoformat_HM requests env mgr n = mgr.
Proof.
  revert n. induction requests as [|i rest IH]; intros n Hnone; [reflexivity|].
  cbn [serve].
  destruct (invoke isoformat_HM i env mgr n) as [tr mgr'] eqn:Hinvoke.
  destruct (invoke_manager isoformat_HM i env mgr n)
    as [Hsame | (v & -> & _)].
  - rewrite Hinvoke in Hsame. cbn [snd] in Hsame. subst mgr'.
    apply IH. intros v Hin. apply (Hnone v). now right.
  - exfalso. apply (Hnone v). now left.
Qed.

(** X7.  Only the settings update assigns to the settings the manager
    object is created with: after a sequence of invocations without one,
    whatever the collaborators answer, the attributes [max_history] and
    [persist_directory] have the values they had.  (What the manager
    stores through its own methods is not the matter here.) *)
Theorem serve_without_update (isoformat_HM : string -> string + string)
    (requests : list Invocation) (env : Env) (mgr : ChatHistoryManager)
    (n : nat) :
  (forall v, ~ In (PostSettings v) requests) ->
  max_history (serve isoformat_HM requests env mgr n) = max_history mgr /\
  persist_directory (serve isoformat_HM requests env mgr n)
  = persist_directory mgr.
Proof.
  intros Hnone.
  rewrite (serve_without_update_manager isoformat_HM requests env mgr n Hnone).
  split; reflexivity.
Qed.

Lemma serve_without_update_witness :
  max_history
    (serve sample_isoformat_HM
           [ PostChat temporal_request; GetHistory "minecraft" (Some 10%Z) None;
             GetStats "minecraft"; GetGames; PostChat plain_request;
             GetSettings ]
           history_env chat_history_manager 0) = 30%Z.
Proof.
  refine (proj1 (serve_without_update sample_isoformat_HM
                   [ PostChat temporal_request;
                     GetHistory "minecraft" (Some 10%Z) None;
                     GetStats "minecraft"; GetGames; PostChat plain_request;
                     GetSettings ]
                   history_env chat_history_manager 0 _)).
  intros v Hin. cbn in Hin.
  repeat (destruct Hin as [Hin | Hin]; [discriminate|]). exact Hin.
Defined.

(** ** The calls of a [/chat] request *)

Section ChatBehaviour.

Variable isoformat_HM : string -> string + string.

Ltac step :=
  cbn -[summarize no_history_reply enhance response_text_of PyStr.join
        String.append getattr].

Ltac answers :=
  repeat match goal with
         | |- context [match ?env ?X ?c ?n with inl _ => _ | inr _ => _ end] =>
             let a := fresh "answer" in
             let Ha := fresh "Hanswer" in
             destruct (env X c n) as [a | a] eqn:Ha; step
         end.

(** Every way a run of [chat] can go: the classification, then the
    answers of the collaborators one after the other. *)
Ltac chat_cases :=
  unfold chat;
  match goal with
  | |- context [parse_temporal_query ?m] =>
      destruct (parse_temporal_query m) eqn:Hparse
  end; step;
  [ answers;
    try (match goal with
         | |- context [match ?hist with [] => _ | _ :: _ => _ end] =>
             let msg := fresh "msg" in
             let rest := fresh "rest" in
             let Hlines := fresh "Hlines" in
             destruct hist as [|msg rest]; step;
             [ answers
             | destruct (summarize_no_call isoformat_HM (msg :: rest))
                 as [[? Hlines] | [? Hlines]];
               rewrite Hlines; step; answers ]
         end)
  | match goal with
    | |- context [if getattr ?b true then _ else _] =>
        destruct (getattr b true) eqn:Hinclude
    end; step; answers;
    try (match goal with
         | |- context [if truthy ?a then _ else _] =>
             destruct (truthy a) eqn:Htruthy
         end; step; answers) ].

(** X8.  A [/chat] request makes at most three calls, among them at most
    one read of the stored history, at most one call of the model and at
    most one [add_message]. *)
Theorem chat_call_budget (message : ChatMessage.t) (env : Env)
    (mgr : ChatHistoryManager) (n : nat) :
  let tr := trace (run (chat isoformat_HM message) env mgr n) in
  (List.length tr <= 3)%nat /\
  (history_reads tr <= 1)%nat /\
  (List.length (model_messages tr) <= 1)%nat /\
  (List.length (stored_exchanges tr) <= 1)%nat.
Proof.
  cbv zeta. chat_cases; cbn; repeat split; lia.
Qed.

(** X9.  A temporal request is answered from the stored history alone:
    its first call is the retrieval of the window, and it never calls the
    model. *)
Theorem chat_temporal_skips_model (message : ChatMessage.t) (env : Env)
    (mgr : ChatHistoryManager) (n : nat) (h : Z) :
  parse_temporal_query (ChatMessage.message message) = Temporal h ->
  let tr := trace (run (chat isoformat_HM message) env mgr n) in
  hd_error tr
  = Some (Called (get_recent_history
                    (getattr (ChatMessage.game message) "general")
                    None (Some h))) /\
  model_messages tr = [] /\
  (List.length tr <= 2)%nat.
Proof.
  intros Hh. cbv zeta. chat_cases; try discriminate;
    injection Hh as <-; cbn; repeat split; lia.
Qed.

(** X10.  A non-temporal request that opts out of the history never reads
    it: its first call is the model call, with the user's message as it
    came and the request's image. *)
Theorem chat_history_opt_out (message : ChatMessage.t) (env : Env)
    (mgr : ChatHistoryManager) (n : nat) :
  parse_temporal_query (ChatMessage.message message) = NotTemporal ->
  ChatMessage.include_history message = Some false ->
  let tr := trace (run (chat isoformat_HM message) env mgr n) in
  history_reads tr = 0%nat /\
  hd_error tr
  = Some (Called (chat_with_gemini (ChatMessage.message message)
                                   (ChatMessage.image_data message))).
Proof.
  intros Hnot Hoff. cbv zeta. unfold chat. rewrite Hnot, Hoff.
  cbn [getattr]. step. answers; cbn; split; reflexivity.
Qed.

(** X11.  Every failure of a [/chat] request is reported as HTTP 500 with
    a detail that starts with "Chat error: ". *)
Theorem chat_failure_is_500 (message : ChatMessage.t) (env : Env)
    (mgr : ChatHistoryManager) (n : nat) (http : HTTPException) :
  outcome (run (chat isoformat_HM message) env mgr n) = Raised http ->
  status_code http = 500%Z /\
  exists e, detail http = "Chat error: " ++ e.
Proof.
  chat_cases; try discriminate; intros [= <-]; cbn [status_code detail];
    split; try reflexivity; eexists; reflexivity.
Qed.

(** X12.  A failed [/chat] request has handed no exchange to
    [add_message], unless the failure is [add_message]'s own: then the
    one exchange is the request's last call and the detail carries its
    error. *)
Theorem chat_failure_stores_nothing (message : ChatMessage.t) (env : Env)
    (mgr : ChatHistoryManager) (n : nat) (http : HTTPException) :
  outcome (run (chat isoformat_HM message) env mgr n) = Raised http ->
  let tr := trace (run (chat isoformat_HM message) env mgr n) in
  stored_exchanges tr = [] \/
  exists g u a e,
    stored_exchanges tr = [ (g, u, a) ] /\
    env _ (add_message g u a) (Nat.pred (List.length tr) + n) = inr e /\
    detail http = "Chat error: " ++ e.
Proof.
  cbv zeta. chat_cases; try discriminate; intros [= <-]; cbn;
    try (left; reflexivity);
    right; do 4 eexists;
    (split; [reflexivity | split; [eassumption | reflexivity]]).
Qed.
(** X13.  A temporal request ignores the image and the history options of
    its message object: it runs as the request that carries the text and
    the scope only. *)
Theorem chat_temporal_ignores_options (message : ChatMessage.t) (env : Env)
    (mgr : ChatHistoryManager) (n : nat) :
  is_temporal (parse_temporal_query (ChatMessage.message message)) = true ->
  run (chat isoformat_HM message) env mgr n
  = run (chat isoformat_HM
           (ChatMessage.make (ChatMessage.message message) None
                             (ChatMessage.game message) None None))
        env mgr n.
Proof.
  intros Htemporal. unfold chat. cbn [ChatMessage.message ChatMessage.game].
  destruct (parse_temporal_query (ChatMessage.message message));
    [reflexivity | discriminate].
Qed.

(** *** The history summary *)

Lemma take_prefix (k : nat) (s : string) :
  String.length (PyStr.take k s) = Nat.min k (String.length s) /\
  (exists rest, s = PyStr.take k s ++ rest) /\
  ((String.length s <= k)%nat -> PyStr.take k s = s).
Proof.
  revert s. induction k as [|k IH]; intros s.
  - simpl. split; [reflexivity | split; [now exists s|]].
    destruct s; simpl; [reflexivity | lia].
  - destruct s as [|c s]; simpl.
    + split; [reflexivity | split; [now exists EmptyString | reflexivity]].
    + destruct (IH s) as (Hlen & [rest Hrest] & Hfull).
      split; [now rewrite Hlen | split].
      * exists rest. now rewrite <- Hrest.
      * intros Hs. rewrite Hfull; [reflexivity | lia].
Qed.

Lemma summarize_fails (history : list MessageRecord) :
  Exists (fun msg => exists e, isoformat_HM (timestamp msg) = inr e) history ->
  exists e msg,
    summarize isoformat_HM history = Raise e /\
    In msg history /\ isoformat_HM (timestamp msg) = inr e.
Proof.
  induction history as [|msg rest IH]; intros Hex; [inversion Hex|].
  simpl. destruct (isoformat_HM (timestamp msg)) as [t | e] eqn:Ht.
  - assert (Hrest : Exists (fun m => exists e, isoformat_HM (timestamp m) = inr e) rest).
    { inversion Hex as [? ? [e He] | ? ? Hr]; subst; [congruence | exact Hr]. }
    destruct (IH Hrest) as (e & m & -> & Hin & Hm).
    exists e, m. simpl. auto.
  - exists e, msg. auto.
Qed.

(** X14.  The summary has three lines for every record of the window, in
    the window's order: the time, the user's message in full, and the
    assistant's response cut to its first 100 characters (the piece shown
    starts the response and has 100 characters, or all of them when the
    response has fewer) and always followed by "...". *)
Theorem summarize_lines (history : list MessageRecord) (lines : list string) :
  summarize isoformat_HM history = Return lines ->
  List.length lines = (3 * List.length history)%nat /\
  forall i msg,
    nth_error history i = Some msg ->
    exists time_str shown,
      isoformat_HM (timestamp msg) = inl time_str /\
      nth_error lines (3 * i) = Some ("At " ++ time_str ++ ":") /\
      nth_error lines (3 * i + 1) = Some ("  You: " ++ user_message msg) /\
      nth_error lines (3 * i + 2) = Some ("  Me: " ++ shown ++ "...") /\
      String.length shown
      = Nat.min 100 (String.length (assistant_response msg)) /\
      (exists rest, assistant_response msg = shown ++ rest) /\
      ((String.length (assistant_response msg) <= 100)%nat ->
       shown = assistant_response msg).
Proof.
  revert lines. induction history as [|m rest IH]; intros lines Hsum.
  - simpl in Hsum. injection Hsum as <-. split; [reflexivity|].
    intros i msg Hnth. destruct i; discriminate.
  - simpl in Hsum.
    destruct (isoformat_HM (timestamp m)) as [t | e] eqn:Ht; [|discriminate].
    destruct (summarize_no_call isoformat_HM rest) as [[more Hmore] | [e Hmore]];
      rewrite Hmore in Hsum; simpl in Hsum; [|discriminate].
    injection Hsum as <-. destruct (IH more Hmore) as [Hlen Hnth].
    split; [simpl; lia|].
    intros i msg Hi. destruct i as [|i].
    + simpl in Hi. injection Hi as <-.
      exists t, (PyStr.take 100 (assistant_response m)).
      destruct (take_prefix 100 (assistant_response m)) as (H1 & H2 & H3).
      repeat split; auto.
    + simpl in Hi. destruct (Hnth i msg Hi)
        as (t' & shown & H0 & H1 & H2 & H3 & H4).
      exists t', shown. split; [exact H0|].
      replace (3 * S i)%nat with (S (S (S (3 * i)))) by lia.
      cbn [Nat.add nth_error]. auto.
Qed.

(** X15.  The summary is produced exactly when the date library accepts
    the timestamp of every record of the window. *)
Theorem summarize_succeeds_iff (history : list MessageRecord) :
  (exists lines, summarize isoformat_HM history = Return lines) <->
  Forall (fun msg => exists t, isoformat_HM (timestamp msg) = inl t) history.
Proof.
  split.
  - intros [lines Hsum]. apply Forall_forall. intros msg Hin.
    destruct (isoformat_HM (timestamp msg)) as [t | e] eqn:Ht; [eauto|].
    exfalso.
    assert (Hex : Exists (fun m => exists e, isoformat_HM (timestamp m) = inr e)
                         history).
    { apply Exists_exists. exists msg. eauto. }
    destruct (summarize_fails history Hex) as (e' & m & Hraise & _).
    congruence.
  - induction history as [|msg rest IH]; intros Hall; simpl.
    + now exists [].
    + inversion Hall as [|? ? [t Ht] Hrest]; subst. rewrite Ht.
      destruct (IH Hrest) as [more ->]. simpl. eauto.
Qed.

(** X16.  A temporal request whose window holds a record with a timestamp
    the date library rejects fails with HTTP 500 after its one call, the
    retrieval: the detail carries the library's error for such a record,
    and no exchange is handed to [add_message]. *)
Theorem chat_temporal_malformed_timestamp (message : ChatMessage.t)
    (env : Env) (mgr : ChatHistoryManager) (n : nat) (h : Z)
    (history : list MessageRecord) :
  parse_temporal_query (ChatMessage.message message) = Temporal h ->
  let game := getattr (ChatMessage.game message) "general" in
  env _ (get_recent_history game None (Some h)) n = inl history ->
  Exists (fun msg => exists e, isoformat_HM (timestamp msg) = inr e) history ->
  let r := run (chat isoformat_HM message) env mgr n in
  trace r = [ Called (get_recent_history game None (Some h)) ] /\
  stored_exchanges (trace r) = [] /\
  exists e msg,
    In msg history /\ isoformat_HM (timestamp msg) = inr e /\
    outcome r = Raised {| status_code := 500;
                          detail := "Chat error: " ++ e |}.
Proof.
  intros Hparse game Hhistory Hbad r. subst r.
  destruct (chat_temporal_run isoformat_HM message env mgr n h Hparse)
    as [_ Hrun].
  fold game in Hrun. rewrite Hhistory in Hrun.
  destruct (summarize_fails history Hbad) as (e & msg & Hraise & Hin & He).
  destruct history as [|m rest]; [destruct Hin|].
  rewrite Hraise in Hrun. cbn [hbind] in Hrun.
  destruct Hrun as [Htrace Hout]. rewrite Htrace.
  repeat split. exists e, msg. auto.
Qed.

End ChatBehaviour.

(** ** More on the scope listing *)

Lemma endswith_iff (p s : string) :
  PyStr.endswith p s = true <-> exists pre, s = pre ++ p.
Proof.
  induction s as [|c s IH]; cbn [PyStr.endswith].
  - rewrite orb_false_r, String.eqb_eq. split.
    + intros ->. now exists EmptyString.
    + intros [pre H]. destruct pre; simpl in H; [auto | discriminate].
  - rewrite orb_true_iff, String.eqb_eq, IH. split.
    + intros [-> | [pre ->]]; [now exists EmptyString | now exists (String c pre)].
    + intros [pre H]. destruct pre as [|d pre]; simpl in H.
      * left. auto.
      * right. injection H as _ H. now exists pre.
Qed.

(** The loop over the collections, whatever the store answers. *)
Lemma collect_games_returned (env : Env) (collections : list string)
    (mgr : ChatHistoryManager) (n : nat) (entries : list GameEntry.t) :
  outcome (run (collect_games collections) env mgr n) = Returned entries ->
  map GameEntry.collection_name entries
  = filter (PyStr.endswith "_chat_history") collections /\
  trace (run (collect_games collections) env mgr n)
  = map (fun entry => Called (get_stats (GameEntry.game entry))) entries /\
  forall i entry,
    nth_error entries i = Some entry ->
    GameEntry.game entry = game_name_of (GameEntry.collection_name entry) /\
    exists stats,
      env _ (get_stats (GameEntry.game entry)) (n + i) = inl stats /\
      GameEntry.total_messages entry = dict_get "total_messages" 0%Z stats.
Proof.
  revert n entries.
  induction collections as [|name rest IH]; intros n entries; simpl.
  - intros [= <-].
    split; [reflexivity | split; [reflexivity|]].
    intros i entry Hi. destruct i; discriminate.
  - destruct (PyStr.endswith "_chat_history" name); [|apply IH].
    simpl. destruct (env _ (get_stats (game_name_of name)) n)
      as [stats | e] eqn:Hstats; simpl; [|discriminate].
    rewrite run_hbind.
    destruct (outcome (run (collect_games rest) env mgr (S n)))
      as [more | e] eqn:Hrest; simpl; [|discriminate].
    intros [= <-]. destruct (IH (S n) more Hrest) as (Hnames & Htrace & Hnth).
    simpl. rewrite Hnames, Htrace, app_nil_r.
    split; [reflexivity | split; [reflexivity|]].
    intros i entry Hi. destruct i as [|i]; simpl in Hi.
    + injection Hi as <-. split; [reflexivity|].
      exists stats. rewrite Nat.add_0_r. auto.
    + destruct (Hnth i entry Hi) as (Hgame & st & Hst & Htotal).
      split; [exact Hgame|]. exists st. rewrite Nat.add_succ_r. auto.
Qed.

Lemma collect_games_raised (env : Env) (collections : list string)
    (mgr : ChatHistoryManager) (n : nat) (e : string) :
  outcome (run (collect_games collections) env mgr n) = Raised e ->
  exists name k,
    In name collections /\
    env _ (get_stats (game_name_of name)) k = inr e.
Proof.
  revert n. induction collections as [|name rest IH]; intros n; simpl.
  - discriminate.
  - destruct (PyStr.endswith "_chat_history" name).
    + simpl. destruct (env _ (get_stats (game_name_of name)) n)
        as [stats | e'] eqn:Hstats; simpl.
      * rewrite run_hbind.
        destruct (outcome (run (collect_games rest) env mgr (S n)))
          as [more | e'] eqn:Hrest; simpl; [discriminate|].
        intros [= ->]. destruct (IH _ Hrest) as (nm & k & Hin & Hk).
        exists nm, k. auto.
      * intros [= ->]. exists name, n. auto.
    + intros H. destruct (IH _ H) as (nm & k & Hin & Hk). exists nm, k. auto.
Qed.

(** X17.  Whatever the store answers, a listing that is returned has one
    entry per collection whose name ends with [_chat_history] and none
    for the others, in the store's order; each entry carries the game
    name derived from its collection name and the count that [get_stats]
    answered for that game name at the entry's turn; [total_games] is the
    number of entries, and the calls made are [list_collections] and one
    [get_stats] per entry. *)
Theorem list_games_with_history_returned (env : Env)
    (mgr : ChatHistoryManager) (n : nat) (listing : GamesListing) :
  outcome (run list_games_with_history env mgr n) = Returned listing ->
  exists collections,
    env _ list_collections n = inl collections /\
    map GameEntry.collection_name (games listing)
    = filter (PyStr.endswith "_chat_history") collections /\
    (forall name,
       In name (map GameEntry.collection_name (games listing)) <->
       In name collections /\ exists pre, name = pre ++ "_chat_history") /\
    total_games listing = Z.of_nat (List.length (games listing)) /\
    trace (run list_games_with_history env mgr n)
    = Called list_collections
      :: map (fun entry => Called (get_stats (GameEntry.game entry)))
             (games listing) /\
    forall i entry,
      nth_error (games listing) i = Some entry ->
      GameEntry.game entry = game_name_of (GameEntry.collection_name entry) /\
      exists stats,
        env _ (get_stats (GameEntry.game entry)) (S n + i) = inl stats /\
        GameEntry.total_messages entry = dict_get "total_messages" 0%Z stats.
Proof.
  unfold list_games_with_history. rewrite run_try_except. simpl.
  destruct (env _ list_collections n) as [collections | e] eqn:Hcollections;
    simpl; [|discriminate].
  rewrite run_hbind.
  destruct (outcome (run (collect_games collections) env mgr (S n)))
    as [entries | e] eqn:Hentries; simpl; [|discriminate].
  intros [= <-]. exists collections. cbn [games total_games].
  destruct (collect_games_returned env collections mgr (S n) entries Hentries)
    as (Hnames & Htrace & Hnth).
  rewrite Htrace, app_nil_r.
  split; [reflexivity | split; [exact Hnames | split; [|auto]]].
  intros name. rewrite Hnames, filter_In, endswith_iff. tauto.
Qed.

(** X18.  A listing fails with HTTP 500 only, and only because the store
    failed: the detail is the error of [list_collections], after which no
    other call is made, or the error of a [get_stats] call for a listed
    collection; what the earlier collections gave is not returned. *)
Theorem list_games_with_history_raised (env : Env)
    (mgr : ChatHistoryManager) (n : nat) (http : HTTPException) :
  outcome (run list_games_with_history env mgr n) = Raised http ->
  status_code http = 500%Z /\
  ((env _ list_collections n = inr (detail http) /\
    trace (run list_games_with_history env mgr n) = [ Called list_collections ])
   \/
   (exists collections name k,
      env _ list_collections n = inl collections /\
      In name collections /\
      env _ (get_stats (game_name_of name)) k = inr (detail http))).
Proof.
  unfold list_games_with_history. rewrite run_try_except. simpl.
  destruct (env _ list_collections n) as [collections | e] eqn:Hcollections;
    simpl.
  - rewrite run_hbind.
    destruct (outcome (run (collect_games collections) env mgr (S n)))
      as [entries | e] eqn:Hentries; simpl; [discriminate|].
    intros [= <-]. split; [reflexivity|]. right.
    destruct (collect_games_raised env collections mgr (S n) e Hentries)
      as (name & k & Hin & Hk).
    exists collections, name, k. auto.
  - intros [= <-]. split; [reflexivity|]. left. auto.
Qed.

Lemma letter_case_not_underscore (c : ascii) :
  PyStr.is_alpha c = true ->
  Ascii.eqb "_" (PyStr.lower_char c) = false /\
  Ascii.eqb "_" (PyStr.upper_char c) = false.
Proof.
  destruct c as [[] [] [] [] [] [] [] []]; vm_compute;
    intros H; try discriminate; split; reflexivity.
Qed.

Lemma replace_underscore_none (k : nat) (s : string) :
  PyStr.contains "_" (PyStr.replace_from "_" " " k s) = false.
Proof.
  revert k. induction s as [|c s IH]; intros k; [reflexivity|].
  cbn [PyStr.replace_from]. destruct k as [|k]; [|apply IH].
  cbn [PyStr.startswith]. destruct (Ascii.eqb "_" c) eqn:Hc.
  - destruct s; cbn [andb String.length Nat.sub];
      cbn [append PyStr.contains PyStr.startswith Ascii.eqb Bool.eqb andb orb];
      apply IH.
  - destruct s; cbn [andb];
      cbn [PyStr.contains PyStr.startswith]; rewrite Hc; cbn [andb orb];
      apply IH.
Qed.

Lemma title_underscore_none (b : bool) (s : string) :
  PyStr.contains "_" s = false ->
  PyStr.contains "_" (PyStr.title_from b s) = false.
Proof.
  revert b. induction s as [|c s IH]; intros b; [reflexivity|].
  cbn [PyStr.contains PyStr.startswith PyStr.title_from].
  intros H. apply orb_false_iff in H. destruct H as [Hc Hs].
  assert (Hc' : Ascii.eqb "_" c = false).
  { destruct (Ascii.eqb "_" c); [destruct s; discriminate | reflexivity]. }
  destruct (PyStr.is_alpha c) eqn:Halpha.
  - destruct (letter_case_not_underscore c Halpha) as [Hl Hu].
    cbn [PyStr.contains PyStr.startswith].
    destruct b; [rewrite Hl | rewrite Hu]; cbn [andb orb]; now apply IH.
  - cbn [PyStr.contains PyStr.startswith]. rewrite Hc'. cbn [andb orb].
    now apply IH.
Qed.

(** X19.  The game name derived from a collection name never contains an
    underscore: every underscore left after the suffix is removed becomes
    a space, and the title-casing brings none back. *)
Theorem game_name_of_no_underscore (name : string) :
  ~ PyStr.occurs_in "_" (game_name_of name).
Proof.
  apply contains_false_iff. unfold game_name_of, PyStr.title, PyStr.replace.
  apply title_underscore_none, replace_underscore_none.
Qed.

(** X20.  The listing and the statistics endpoint agree: as long as the
    store answers [get_stats] the same way, the [total_messages] of every
    listed entry is the one found in what [GET /history/{game}/stats]
    returns for the entry's game name (0 when the statistics lack it). *)
Theorem list_games_agrees_with_get_chat_stats (env : Env)
    (mgr mgr' : ChatHistoryManager) (n n' : nat)
    (stats_of : string -> dict Z) (listing : GamesListing)
    (entry : GameEntry.t) :
  (forall game k, env _ (get_stats game) k = inl (stats_of game)) ->
  outcome (run list_games_with_history env mgr n) = Returned listing ->
  In entry (games listing) ->
  exists stats,
    outcome (run (get_chat_stats (GameEntry.game entry)) env mgr' n')
    = Returned (GameStats.make (GameEntry.game entry) stats) /\
    GameEntry.total_messages entry = dict_get "total_messages" 0%Z stats.
Proof.
  intros Hstats. unfold list_games_with_history. rewrite run_try_except. simpl.
  destruct (env _ list_collections n) as [collections | e]; simpl;
    [|discriminate].
  rewrite run_hbind, (run_collect_games env stats_of Hstats). simpl.
  intros [= <-] Hin. cbn [games] in Hin.
  apply in_map_iff in Hin. destruct Hin as (name & <- & _).
  exists (stats_of (game_name_of name)). unfold get_chat_stats.
  rewrite run_try_except. simpl. rewrite Hstats. simpl. auto.
Qed.

(** ** Sample runs of the properties above *)

Lemma chat_temporal_skips_model_witness :
  model_messages
    (trace (run (chat sample_isoformat_HM temporal_request) history_env
                chat_history_manager 0)) = [].
Proof.
  exact (proj1 (proj2 (chat_temporal_skips_model sample_isoformat_HM
                         temporal_request history_env chat_history_manager 0
                         24%Z eq_refl))).
Defined.

Lemma chat_history_opt_out_witness :
  history_reads
    (trace (run (chat sample_isoformat_HM opt_out_request) history_env
                chat_history_manager 0)) = 0%nat.
Proof.
  exact (proj1 (chat_history_opt_out sample_isoformat_HM opt_out_request
                  history_env chat_history_manager 0 eq_refl eq_refl)).
Defined.

Lemma chat_failure_is_500_witness :
  status_code {| status_code := 500;
                 detail := "Chat error: model unavailable" |} = 500%Z /\
  exists e, detail {| status_code := 500;
                      detail := "Chat error: model unavailable" |}
            = "Chat error: " ++ e.
Proof.
  exact (chat_failure_is_500 sample_isoformat_HM plain_request model_down_env
           chat_history_manager 0 _ eq_refl).
Defined.

Lemma chat_failure_stores_nothing_witness :
  stored_exchanges
    (trace (run (chat sample_isoformat_HM plain_request) add_failing_env
                chat_history_manager 0)) = [] \/
  exists g u a e,
    stored_exchanges
      (trace (run (chat sample_isoformat_HM plain_request) add_failing_env
                  chat_history_manager 0)) = [ (g, u, a) ] /\
    add_failing_env _ (add_message g u a)
      (Nat.pred
         (List.length
            (trace (run (chat sample_isoformat_HM plain_request)
                        add_failing_env chat_history_manager 0))) + 0)
    = inr e /\
    detail {| status_code := 500; detail := "Chat error: disk full" |}
    = "Chat error: " ++ e.
Proof.
  exact (chat_failure_stores_nothing sample_isoformat_HM plain_request
           add_failing_env chat_history_manager 0 _ eq_refl).
Defined.

Lemma chat_temporal_ignores_options_witness :
  run (chat sample_isoformat_HM decorated_temporal_request) history_env
      chat_history_manager 0
  = run (chat sample_isoformat_HM temporal_request) history_env
        chat_history_manager 0.
Proof.
  exact (chat_temporal_ignores_options sample_isoformat_HM
           decorated_temporal_request history_env chat_history_manager 0
           eq_refl).
Defined.

Lemma summarize_lines_witness :
  exists time_str shown,
    sample_isoformat_HM (timestamp sample_record) = inl time_str /\
    nth_error [ "At 10:30:"; "  You: How do I find diamonds?";
                "  Me: Mine at deep levels...." ] 2
    = Some ("  Me: " ++ shown ++ "...") /\
    String.length shown = 20%nat /\
    (exists rest, "Mine at deep levels." = shown ++ rest).
Proof.
  destruct (summarize_lines sample_isoformat_HM [ sample_record ] _ eq_refl)
    as [_ Hnth].
  destruct (Hnth 0%nat sample_record eq_refl)
    as (time_str & shown & Htime & _ & _ & Hme & Hlen & Hprefix & _).
  exists time_str, shown.
  split; [exact Htime | split; [exact Hme | split; [exact Hlen | exact Hprefix]]].
Defined.

Lemma chat_temporal_malformed_timestamp_witness :
  trace (run (chat sample_isoformat_HM temporal_request) damaged_history_env
             chat_history_manager 0)
  = [ Called (get_recent_history "minecraft" None (Some 24%Z)) ].
Proof.
  refine (proj1 (chat_temporal_malformed_timestamp sample_isoformat_HM
                   temporal_request damaged_history_env chat_history_manager
                   0 24%Z _ eq_refl eq_refl _)).
  apply Exists_cons_tl, Exists_cons_hd.
  exists "Invalid isoformat string: 'yesterday'". reflexivity.
Defined.

Lemma list_games_with_history_returned_witness :
  exists collections,
    history_env _ list_collections 0 = inl collections /\
    map GameEntry.collection_name [ GameEntry.make "Minecraft"
                                      "minecraft_chat_history" 1 ]
    = filter (PyStr.endswith "_chat_history") collections.
Proof.
  destruct (list_games_with_history_returned history_env chat_history_manager
              0 _ eq_refl) as (collections & Hc & Hnames & _).
  exists collections. split; [exact Hc | exact Hnames].
Defined.

Lemma list_games_with_history_raised_witness :
  status_code {| status_code := 500; detail := "store unavailable" |}
  = 500%Z.
Proof.
  exact (proj1 (list_games_with_history_raised store_down_env
                  chat_history_manager 0 _ eq_refl)).
Defined.

Lemma list_games_agrees_with_get_chat_stats_witness :
  exists stats,
    outcome (run (get_chat_stats "Minecraft") history_env
                 chat_history_manager 7)
    = Returned (GameStats.make "Minecraft" stats) /\
    1%Z = dict_get "total_messages" 0%Z stats.
Proof.
  refine (list_games_agrees_with_get_chat_stats history_env
            chat_history_manager chat_history_manager 0 7
            (fun _ => [ ("total_messages", 1%Z) ]) _
            (GameEntry.make "Minecraft" "minecraft_chat_history" 1)
            _ eq_refl _).
  - intros game k. reflexivity.
  - simpl. now left.
Defined.

(** X21.  A non-temporal request that does not opt out of the history
    first asks for the context of its scope, with the message's
    [history_limit] and 5 when it carries none; when that call fails the
    request fails with HTTP 500 and the model is never called. *)
Theorem chat_context_call (isoformat_HM : string -> string + string)
    (message : ChatMessage.t) (env : Env) (mgr : ChatHistoryManager)
    (n : nat) :
  parse_temporal_query (ChatMessage.message message) = NotTemporal ->
  ChatMessage.include_history message <> Some false ->
  let game := getattr (ChatMessage.game message) "general" in
  let history_limit := getattr (ChatMessage.history_limit message) 5%Z in
  let r := run (chat isoformat_HM message) env mgr n in
  hd_error (trace r) = Some (Called (get_history_context game history_limit))
  /\
  forall e,
    env _ (get_history_context game history_limit) n = inr e ->
    trace r = [ Called (get_history_context game history_limit) ] /\
    outcome r = Raised {| status_code := 500;
                          detail := "Chat error: " ++ e |}.
Proof.
  intros Hnot Hon game history_limit r. subst r game history_limit.
  assert (Hincl : getattr (ChatMessage.include_history message) true = true).
  { destruct (ChatMessage.include_history message) as [[|]|];
      [reflexivity | congruence | reflexivity]. }
  unfold chat. rewrite Hnot. cbv zeta. rewrite Hincl.
  cbn -[enhance response_text_of String.append getattr].
  split; [reflexivity|].
  intros e He. rewrite He.
  cbn -[enhance response_text_of String.append getattr]. auto.
Qed.

Lemma chat_context_call_witness :
  hd_error (trace (run (chat sample_isoformat_HM plain_request)
                       store_down_env chat_history_manager 0))
  = Some (Called (get_history_context "general" 5))
  /\
  outcome (run (chat sample_isoformat_HM plain_request) store_down_env
               chat_history_manager 0)
  = Raised {| status_code := 500;
              detail := "Chat error: store unavailable" |}.
Proof.
  destruct (chat_context_call sample_isoformat_HM plain_request store_down_env
              chat_history_manager 0 eq_refl ltac:(discriminate))
    as [Hfirst Hfail].
  split; [exact Hfirst|].
  exact (proj2 (Hfail "store unavailable" eq_refl)).
Defined.

(** ** Temporal requests and the stored history *)

Lemma evict_length (bound : nat) (records : list MessageRecord) :
  List.length (evict bound records) = Nat.min (List.length records) bound.
Proof. unfold evict. rewrite length_skipn. lia. Qed.

Lemma evict_within (bound : nat) (records : list MessageRecord) :
  (List.length records <= bound)%nat -> evict bound records = records.
Proof.
  intros Hle. unfold evict.
  replace (List.length records - bound)%nat with 0%nat by lia. reflexivity.
Qed.

Lemma evict_keeps_newest (bound : nat) (records : list MessageRecord)
    (new : MessageRecord) :
  (1 <= bound)%nat ->
  exists kept, evict bound (records ++ [ new ]) = (kept ++ [ new ])%list.
Proof.
  intros Hbound. unfold evict. rewrite length_app. cbn [List.length].
  rewrite skipn_app.
  replace (List.length records + 1 - bound - List.length records)%nat
    with 0%nat by lia.
  eexists. reflexivity.
Qed.

(** Claim C9, as the code and the store have it.  A request classified as
    temporal that returns a response has handed the user's message and the
    reply text (the fixed no-history reply when the window is empty, the
    joined summary lines otherwise) to [add_message] for its scope exactly
    once, after the retrieval and before returning that text.  The scope
    then holds its former records followed by the new one, cut to the
    newest [max_history]: one record more while it held fewer than
    [max_history], and [max_history] records, the oldest gone, from then
    on.  The other scopes are untouched. *)
Theorem chat_temporal_appends_exchange
    (isoformat_HM : string -> string + string) (clock : nat -> string)
    (message : ChatMessage.t) (env : Env) (mgr : ChatHistoryManager)
    (n : nat) (h : Z) (store : Store) (result : ChatResult) :
  parse_temporal_query (ChatMessage.message message) = Temporal h ->
  outcome (run (chat isoformat_HM message) env mgr n) = Returned result ->
  let game := getattr (ChatMessage.game message) "general" in
  let user_message := ChatMessage.message message in
  let key := scope_key game in
  let bound := Z.to_nat (max_history mgr) in
  let tr := trace (run (chat isoformat_HM message) env mgr n) in
  let after := stored_after clock env (max_history mgr) tr n store in
  exists history text,
    env _ (get_recent_history game None (Some h)) n = inl history /\
    (history = [] ->
     text = "I don't have any conversation history from the last "
            ++ PyStr.str_int h ++ " hours for " ++ game ++ ".") /\
    (history <> [] ->
     exists lines, summarize isoformat_HM history = Return lines /\
                   text = PyStr.join PyStr.nl lines) /\
    tr = [ Called (get_recent_history game None (Some h));
           Called (add_message game user_message text) ] /\
    result = TemporalReply text game true /\
    let new := {| timestamp := clock (S n);
                  user_message := user_message;
                  assistant_response := text |} in
    after key = evict bound (store key ++ [ new ]) /\
    List.length (after key) = Nat.min (S (List.length (store key))) bound /\
    ((List.length (store key) < bound)%nat ->
     after key = (store key ++ [ new ])%list) /\
    ((1 <= bound)%nat -> exists kept, after key = (kept ++ [ new ])%list) /\
    (forall other, other <> key -> after other = store other).
Proof.
  intros Hparse Hout game user_message key bound tr after.
  destruct (chat_temporal_stores_exchange isoformat_HM message env mgr n h
              result Hparse Hout)
    as (history & text & Hhistory & Hempty & Hsummary & Htrace & _ & Hadd
        & Hresult).
  fold game user_message in Hhistory, Hempty, Hsummary, Htrace, Hadd, Hresult.
  exists history, text.
  split; [exact Hhistory | split; [exact Hempty | split; [exact Hsummary|]]].
  split; [exact Htrace | split; [exact Hresult|]].
  assert (Hafter : after = add_message_spec (max_history mgr) store game
                             user_message text (clock (S n))).
  { subst after tr. rewrite Htrace. cbn [stored_after]. now rewrite Hadd. }
  cbv zeta. rewrite Hafter. unfold add_message_spec.
  fold key. rewrite String.eqb_refl. fold bound.
  split; [reflexivity|]. split.
  { rewrite evict_length, length_app. cbn [List.length]. lia. }
  split.
  { intros Hroom. apply evict_within. rewrite length_app. cbn [List.length]. lia. }
  split.
  { intros Hbound. now apply evict_keeps_newest. }
  intros other Hother.
  destruct (String.eqb_spec other key) as [-> | _]; [contradiction | reflexivity].
Qed.

Lemma chat_temporal_appends_exchange_witness :
  stored_after sample_clock history_env (max_history chat_history_manager)
    (trace (run (chat sample_isoformat_HM temporal_request) history_env
                chat_history_manager 0))
    0 empty_store "minecraft"
  = [ {| timestamp := "2024-05-02T09:00:00";
         user_message := "What did I ask yesterday?";
         assistant_response :=
           "At 10:30:" ++ PyStr.nl ++ "  You: How do I find diamonds?"
           ++ PyStr.nl ++ "  Me: Mine at deep levels...." |} ].
Proof.
  destruct (chat_temporal_appends_exchange sample_isoformat_HM sample_clock
              temporal_request history_env chat_history_manager 0 24%Z
              empty_store
              (TemporalReply
                 ("At 10:30:" ++ PyStr.nl ++ "  You: How do I find diamonds?"
                  ++ PyStr.nl ++ "  Me: Mine at deep levels....")
                 "minecraft" true)
              eq_refl eq_refl)
    as (history & text & _ & _ & _ & _ & Hresult & _ & _ & Hroom & _).
  injection Hresult as <-.
  apply Hroom. cbn. lia.
Defined.

(** Claim C9, as the spec states it, fails on a scope that is full: with
    30 records in the scope and [max_history] 30, a temporal request that
    returns leaves 30 records, not 31. *)
Lemma chat_temporal_full_scope_does_not_grow :
  ~ temporal_request_grows_history sample_isoformat_HM sample_clock
      temporal_request full_scope_env chat_history_manager 0 full_store.
Proof.
  intros Hclaim.
  specialize (Hclaim eq_refl _ eq_refl).
  vm_compute in Hclaim. discriminate.
Qed.
